(** * Grover-search demonstration scripts: circuits and their ideal semantics

    A shallow embedding of the circuit builders of the repository
    ([grover.py], [quantum_architect.py], [quantum_architect_v2.py],
    [quantum_architect/quantum_architect_muli_rule.py]), of the duplicated
    truss fitness function and of the PIL-guarded export methods of
    [TurtleDrawer].

    The scripts build a [cirq.Circuit] by appending operations to it.  A
    circuit is modelled as the list of appended operations, in append
    order (cirq's default insertion moves an operation to an earlier
    moment only past operations on other qubits, which commute with it);
    a builder is a state-and-exception computation over that list.
    Gates act on a state vector of exact amplitudes in Q(sqrt 2): every
    gate the scripts use (X, H, Z and their controlled versions) has a real
    matrix with entries in that field.  The simulator starts a circuit in
    the all-zero state; a register is simulated at its allocated size. *)

From Stdlib Require Import String Ascii ZArith NArith QArith Qabs Qreals Reals Lra Lia Bool List.
Import ListNotations.
Close Scope Q_scope.
Close Scope R_scope.
Open Scope nat_scope.

Set Implicit Arguments.

(* ===================================================================== *)
(** ** Python exceptions and results *)
(* ===================================================================== *)

Inductive exn : Type :=
| ValueError      (* tuple unpacking with the wrong number of values *)
| IndexError      (* list index out of range *)
| ImportError     (* [from PIL import ...] without Pillow installed *)
| OtherError (msg : string).

Inductive result (A : Type) : Type :=
| Ok (a : A)
| Raise (e : exn).
Arguments Ok {A} a.
Arguments Raise {A} e.

(* ===================================================================== *)
(** ** Exact amplitudes: the field Q(sqrt 2) *)
(* ===================================================================== *)

Module Amp.

(** [mk r s] stands for r + s * sqrt 2.  Components are kept reduced, so
    equal numbers built from reduced inputs are equal terms. *)
Record t : Type := mk { rat : Q; irr : Q }.

Definition zero : t := mk 0%Q 0%Q.
Definition one : t := mk 1%Q 0%Q.

Definition add (a b : t) : t :=
  mk (Qred (rat a + rat b)%Q) (Qred (irr a + irr b)%Q).

Definition opp (a : t) : t :=
  mk (Qred (- rat a)%Q) (Qred (- irr a)%Q).

Definition sub (a b : t) : t := add a (opp b).

Definition mul (a b : t) : t :=
  mk (Qred (rat a * rat b + (2 # 1) * (irr a * irr b))%Q)
     (Qred (rat a * irr b + irr a * rat b)%Q).

(** 1 / sqrt 2 = (1/2) * sqrt 2, the entry of the Hadamard matrix. *)
Definition inv_sqrt2 : t := mk 0%Q (1 # 2)%Q.

Definition of_Q (q : Q) : t := mk (Qred q) 0%Q.

(** Squared modulus of a (real) amplitude. *)
Definition sq (a : t) : t := mul a a.

Definition sum (l : list t) : t := fold_right add zero l.

(** Interpretation in the reals. *)
Definition toR (a : t) : R := (Q2R (rat a) + Q2R (irr a) * sqrt 2)%R.

End Amp.

(* ===================================================================== *)
(** ** Circuits *)
(* ===================================================================== *)

(** [cirq.LineQubit(i)] *)
Definition qubit := nat.

Definition LineQubit_range (n : nat) : list qubit := seq 0 n.

Inductive base_gate : Type := GX | GH | GZ.

(** An operation appended to a circuit: a base gate on a target, possibly
    [controlled_by] other qubits, or a measurement under a key. *)
Inductive op : Type :=
| Gate (g : base_gate) (controls : list qubit) (target : qubit)
| Measure (qs : list qubit) (key : string).

Definition circuit := list op.

(** The cirq constructors the scripts call.  cirq raises a ValueError for
    an operation that names one qubit twice; the constructors here build
    the operation without that check, and the statements about registers
    of any content below assume distinct cells. *)
Definition X (q : qubit) : op := Gate GX [] q.
Definition H (q : qubit) : op := Gate GH [] q.
Definition controlled_by (o : op) (cs : list qubit) : op :=
  match o with
  | Gate g cs0 t => Gate g (cs ++ cs0) t
  | Measure _ _ => o
  end.
Definition CNOT (c t : qubit) : op := Gate GX [c] t.
Definition TOFFOLI (c1 c2 t : qubit) : op := Gate GX [c1; c2] t.
Definition CZ (c t : qubit) : op := Gate GZ [c] t.
Definition measure (qs : list qubit) (key : string) : op := Measure qs key.

Definition X_on_each (qs : list qubit) : list op := map X qs.
Definition H_on_each (qs : list qubit) : list op := map H qs.

(** Qubits an operation touches. *)
Definition op_qubits (o : op) : list qubit :=
  match o with
  | Gate _ cs t => cs ++ [t]
  | Measure qs _ => qs
  end.

(* ===================================================================== *)
(** ** The builder monad: a mutable circuit plus exceptions *)
(* ===================================================================== *)

(** The functions of the scripts act on a [cirq.Circuit] object they are
    handed and append to it in place: an action takes the circuit as it is
    and gives back a value or an exception together with the circuit as it
    has become.  What was appended before an exception stays appended. *)
Definition builder (A : Type) : Type := circuit -> result A * circuit.

Definition ret {A} (a : A) : builder A := fun c => (Ok a, c).

Definition bind {A B} (m : builder A) (k : A -> builder B) : builder B :=
  fun c => match m c with
           | (Ok a, c') => k a c'
           | (Raise e, c') => (Raise e, c')
           end.

Definition raise {A} (e : exn) : builder A := fun c => (Raise e, c).

Declare Scope builder_scope.
Delimit Scope builder_scope with builder.
Notation "x <- m ;; k" := (bind m (fun x => k))
  (at level 61, m at next level, right associativity) : builder_scope.
Notation "m ;; k" := (bind m (fun _ => k))
  (at level 61, right associativity) : builder_scope.
Local Open Scope builder_scope.

(** [circuit.append(o)] and [circuit.append([o1, ..., ok])] *)
Definition append (ops : list op) : builder unit :=
  fun c => (Ok tt, c ++ ops).

(** [xs[i]] *)
Definition index {A} (xs : list A) (i : nat) : builder A :=
  match nth_error xs i with
  | Some x => ret x
  | None => raise IndexError
  end.

(** [for x in xs: body(x)] *)
Fixpoint for_each {A} (xs : list A) (body : A -> builder unit) : builder unit :=
  match xs with
  | [] => ret tt
  | x :: xs' => body x ;; for_each xs' body
  end.

(** [for _ in range(n): body] *)
Fixpoint repeat_n (n : nat) (body : builder unit) : builder unit :=
  match n with
  | O => ret tt
  | S n' => body ;; repeat_n n' body
  end.

(** [for _ in range(k)] for a Python integer [k]: no pass when [k <= 0]. *)
Definition for_range (k : Z) (body : builder unit) : builder unit :=
  repeat_n (Z.to_nat k) body.

(** [enumerate(xs)] *)
Definition enumerate {A} (xs : list A) : list (nat * A) :=
  combine (seq 0 (length xs)) xs.

(** Run a builder on the empty [cirq.Circuit()] and return the circuit;
    an exception leaves the function, and its local circuit is lost. *)
Definition build (m : builder unit) : result circuit :=
  match m [] with
  | (Ok _, c) => Ok c
  | (Raise e, _) => Raise e
  end.

(* ===================================================================== *)
(** ** State vectors and the action of gates *)
(* ===================================================================== *)

(** A state of an [n]-qubit register holds its [2^n] amplitudes.  Index
    [i] is the basis state whose bit for qubit [q] is bit [n - 1 - q] of
    [i] (cirq's big-endian order: qubit 0 is the most significant bit).
    The amplitudes sit at the leaves of a binary tree of depth [n] that
    branches on the bits of the index, lowest bit first, so that an
    amplitude is reached in [n] steps. *)
Inductive state : Type :=
| Leaf (a : Amp.t)
| Node (even odd : state).

Definition dim (n : nat) : nat := 2 ^ n.

(** The state of [n] qubits with amplitude [f i] at every index [i]. *)
Fixpoint tabulate (n : nat) (f : N -> Amp.t) : state :=
  match n with
  | O => Leaf (f 0%N)
  | S n' => Node (tabulate n' (fun j => f (2 * j)%N))
                 (tabulate n' (fun j => f (2 * j + 1)%N))
  end.

(** Amplitude at index [i]; zero outside the register. *)
Fixpoint amp_at (st : state) (i : N) : Amp.t :=
  match st with
  | Leaf a => if N.eqb i 0 then a else Amp.zero
  | Node even odd =>
      if N.odd i then amp_at odd (N.div2 i) else amp_at even (N.div2 i)
  end.

Fixpoint map_state (f : Amp.t -> Amp.t) (st : state) : state :=
  match st with
  | Leaf a => Leaf (f a)
  | Node even odd => Node (map_state f even) (map_state f odd)
  end.

(** The indices of an [n]-qubit register, and the amplitudes in index
    order. *)
Definition indices (n : nat) : list N := map N.of_nat (seq 0 (dim n)).

Definition amplitudes (n : nat) (st : state) : list Amp.t :=
  map (amp_at st) (indices n).

Definition bitpos (n : nat) (q : qubit) : N := N.of_nat (n - 1 - q).

Definition qbit (n : nat) (q : qubit) (i : N) : bool :=
  N.testbit i (bitpos n q).

Definition flip (n : nat) (q : qubit) (i : N) : N :=
  N.lxor i (N.shiftl 1 (bitpos n q)).

(** New amplitude at index [i] after a base gate on target [t]. *)
Definition gate_amp (n : nat) (g : base_gate) (t : qubit) (st : state) (i : N) : Amp.t :=
  match g with
  | GX => amp_at st (flip n t i)
  | GZ => if qbit n t i then Amp.opp (amp_at st i) else amp_at st i
  | GH =>
      if qbit n t i
      then Amp.mul Amp.inv_sqrt2 (Amp.sub (amp_at st (flip n t i)) (amp_at st i))
      else Amp.mul Amp.inv_sqrt2 (Amp.add (amp_at st i) (amp_at st (flip n t i)))
  end.

(** A controlled gate acts on the indices whose control bits are all 1 and
    leaves the others alone.  A measurement does not change the state
    vector that is sampled from. *)
Definition apply_op (n : nat) (o : op) (st : state) : state :=
  match o with
  | Gate g cs t =>
      tabulate n
        (fun i => if forallb (fun c => qbit n c i) cs
                  then gate_amp n g t st i
                  else amp_at st i)
  | Measure _ _ => st
  end.

Definition run (n : nat) (c : circuit) (st : state) : state :=
  fold_left (fun s o => apply_op n o s) c st.

(** Basis state of index [i]. *)
Definition basis (n : nat) (i : N) : state :=
  tabulate n (fun k => if N.eqb k i then Amp.one else Amp.zero).

(** Index of the basis state with the given bits, qubit 0 first. *)
Definition index_of_bits (bs : list bool) : N :=
  fold_left (fun acc (b : bool) => (2 * acc + (if b then 1 else 0))%N) bs 0%N.

Definition ket (bs : list bool) : state :=
  basis (length bs) (index_of_bits bs).

Definition scale (a : Amp.t) (st : state) : state := map_state (Amp.mul a) st.

(** The integer a measurement of [qs] reports for basis index [i]
    (big-endian over the measured qubits, as [result.histogram] keys). *)
Definition measured_value (n : nat) (qs : list qubit) (i : N) : N :=
  index_of_bits (map (fun q => qbit n q i) qs).

(** Probability that measuring [qs] yields a value in [valid]. *)
Definition prob_in (n : nat) (qs : list qubit) (valid : list N) (st : state) : Amp.t :=
  Amp.sum
    (map (fun i =>
            if existsb (N.eqb (measured_value n qs i)) valid
            then Amp.sq (amp_at st i) else Amp.zero)
         (indices n)).

(* ===================================================================== *)
(** ** grover.py *)
(* ===================================================================== *)

Module Grover.

Definition two_public_patterns : list (list nat) :=
  [ [1; 1; 0; 0];
    [1; 0; 1; 0];
    [1; 0; 0; 1];
    [0; 1; 1; 0];
    [0; 1; 0; 1];
    [0; 0; 1; 1] ]%nat.

(** The loop [for i, bit_val in enumerate(pattern): if bit_val == 0:
    circuit.append(cirq.X(qubits[i]))]. *)
Definition x_where_zero (qubits : list qubit) (pattern : list nat) : builder unit :=
  for_each (enumerate pattern)
    (fun '(i, bit_val) =>
       if Nat.eqb bit_val 0
       then (q <- index qubits i ;; append [X q])
       else ret tt).

Definition flip_val_if_pattern (qubits : list qubit) (q0 q1 q2 q3 val : qubit)
    (pattern : list nat) : builder unit :=
  x_where_zero qubits pattern ;;
  append [controlled_by (X val) [q0; q1; q2; q3]] ;;
  x_where_zero qubits pattern.

Definition oracle_two_public_rooms (qubits : list qubit) : builder unit :=
  match qubits with
  | [q0; q1; q2; q3; val; _unused_count] =>
      for_each two_public_patterns
        (flip_val_if_pattern qubits q0 q1 q2 q3 val)
  | _ => raise ValueError
  end.

(** Lines 66-71: the block appended after the oracle. *)
Definition diffusion (qubits : list qubit) : builder unit :=
  append (H_on_each (firstn 4 qubits)) ;;
  append (X_on_each (firstn 4 qubits)) ;;
  (q3 <- index qubits 3 ;;
   append [controlled_by (H q3) (firstn 3 qubits)]) ;;
  append (X_on_each (firstn 4 qubits)) ;;
  append (H_on_each (firstn 4 qubits)).

Definition build_grover_circuit (num_iterations : Z) : result circuit :=
  let qubits := LineQubit_range 6 in
  build
    (append (H_on_each (firstn 4 qubits)) ;;
     for_range num_iterations
       (oracle_two_public_rooms qubits ;;
        diffusion qubits) ;;
     append [measure (firstn 4 qubits) "result"]).

(** [valid_states] of the script, as the integers [int(state, 2)]. *)
Definition valid_states : list N := [12; 10; 9; 6; 5; 3]%N.

End Grover.


(* ===================================================================== *)
(** ** quantum_architect_v2.py *)
(* ===================================================================== *)

Module ArchitectV2.

Definition two_of_four_patterns : list (list nat) :=
  [ [1; 1; 0; 0];
    [1; 0; 1; 0];
    [1; 0; 0; 1];
    [0; 1; 1; 0];
    [0; 1; 0; 1];
    [0; 0; 1; 1] ]%nat.

Definition x_where_zero (qubits : list qubit) (pattern : list nat) : builder unit :=
  for_each (enumerate pattern)
    (fun '(i, bit_val) =>
       if Nat.eqb bit_val 0
       then (q <- index qubits i ;; append [X q])
       else ret tt).

(** Body of the loops of STEP 1 and of its uncomputation. *)
Definition toggle_count (qubits : list qubit) (q0 q1 q2 q3 a_count : qubit)
    (pattern : list nat) : builder unit :=
  x_where_zero qubits pattern ;;
  append [controlled_by (X a_count) [q0; q1; q2; q3]] ;;
  x_where_zero qubits pattern.

Definition oracle_count_nonoverlapping_adjacency (qubits : list qubit) : builder unit :=
  match firstn 5 qubits with
  | [q0; q1; q2; q3; val] =>
      match firstn 4 (skipn 5 qubits) with
      | [a_count; a_adj0; a_adj1; a_xor] =>
          (* STEP 1 *)
          for_each two_of_four_patterns
            (toggle_count qubits q0 q1 q2 q3 a_count) ;;
          (* STEP 2, STEP 3 *)
          append [controlled_by (X a_adj0) [q0; q1]] ;;
          append [controlled_by (X a_adj1) [q2; q3]] ;;
          (* STEP 4 *)
          append [CNOT a_adj0 a_xor] ;;
          append [CNOT a_adj1 a_xor] ;;
          (* STEP 5 *)
          append [controlled_by (X val) [a_count; a_xor]] ;;
          (* STEP 6 *)
          append [CNOT a_adj1 a_xor] ;;
          append [CNOT a_adj0 a_xor] ;;
          append [controlled_by (X a_adj1) [q2; q3]] ;;
          append [controlled_by (X a_adj0) [q0; q1]] ;;
          for_each (rev two_of_four_patterns)
            (toggle_count qubits q0 q1 q2 q3 a_count)
      | _ => raise ValueError
      end
  | _ => raise ValueError
  end.

(** Lines 133-138. *)
Definition diffusion (q0 q1 q2 q3 : qubit) : builder unit :=
  append (H_on_each [q0; q1; q2; q3]) ;;
  append (X_on_each [q0; q1; q2; q3]) ;;
  append [controlled_by (H q3) [q0; q1; q2]] ;;
  append (X_on_each [q0; q1; q2; q3]) ;;
  append (H_on_each [q0; q1; q2; q3]).

Definition build_grover_circuit (num_iterations : Z) : result circuit :=
  let qubits := LineQubit_range 9 in
  build
    (match firstn 4 qubits with
     | [q0; q1; q2; q3] =>
         val <- index qubits 4 ;;
         append (H_on_each [q0; q1; q2; q3]) ;;
         for_range num_iterations
           (oracle_count_nonoverlapping_adjacency qubits ;;
            diffusion q0 q1 q2 q3) ;;
         append [measure [q0; q1; q2; q3] "result"]
     | _ => raise ValueError
     end).

Definition valid_states : list N := [12; 3]%N.

End ArchitectV2.

(* ===================================================================== *)
(** ** quantum_architect/quantum_architect_muli_rule.py *)
(* ===================================================================== *)

Module MultiRule.

Definition two_of_four_patterns : list (list nat) :=
  [ [1; 1; 0; 0];
    [1; 0; 1; 0];
    [1; 0; 0; 1];
    [0; 1; 1; 0];
    [0; 1; 0; 1];
    [0; 0; 1; 1] ]%nat.

Definition x_where_zero (qubits : list qubit) (pattern : list nat) : builder unit :=
  for_each (enumerate pattern)
    (fun '(i, bit_val) =>
       if Nat.eqb bit_val 0
       then (q <- index qubits i ;; append [X q])
       else ret tt).

Definition toggle_count (qubits : list qubit) (q0 q1 q2 q3 a_count : qubit)
    (pattern : list nat) : builder unit :=
  x_where_zero qubits pattern ;;
  append [controlled_by (X a_count) [q0; q1; q2; q3]] ;;
  x_where_zero qubits pattern.

Definition oracle_count_nonoverlapping_adjacency (qubits : list qubit) : builder unit :=
  match firstn 5 qubits with
  | [q0; q1; q2; q3; val] =>
      match firstn 4 (skipn 5 qubits) with
      | [a_count; a_adj0; a_adj1; a_xor] =>
          for_each two_of_four_patterns
            (toggle_count qubits q0 q1 q2 q3 a_count) ;;
          append [controlled_by (X a_adj0) [q0; q1]] ;;
          append [controlled_by (X a_adj1) [q2; q3]] ;;
          append [CNOT a_adj0 a_xor] ;;
          append [CNOT a_adj1 a_xor] ;;
          append [controlled_by (X val) [a_count; a_xor]] ;;
          append [CNOT a_adj1 a_xor] ;;
          append [CNOT a_adj0 a_xor] ;;
          append [controlled_by (X a_adj1) [q2; q3]] ;;
          append [controlled_by (X a_adj0) [q0; q1]] ;;
          for_each (rev two_of_four_patterns)
            (toggle_count qubits q0 q1 q2 q3 a_count)
      | _ => raise ValueError
      end
  | _ => raise ValueError
  end.

End MultiRule.

(* ===================================================================== *)
(** ** quantum_architect.py (three rooms) *)
(* ===================================================================== *)

Module Architect3.

Definition oracle_for_2_adj_public (qubits : list qubit) : builder unit :=
  match qubits with
  | [q0; q1; q2; val] =>
      (* pattern 110 *)
      append [X q2] ;;
      append [TOFFOLI q0 q1 val] ;;
      append [X q2] ;;
      (* pattern 011 *)
      append [X q0] ;;
      append [TOFFOLI q1 q2 val] ;;
      append [X q0] ;;
      (* phase flip *)
      append [CZ val q0] ;;
      (* uncompute *)
      append [X q0] ;;
      append [TOFFOLI q1 q2 val] ;;
      append [X q0] ;;
      append [X q2] ;;
      append [TOFFOLI q0 q1 val] ;;
      append [X q2]
  | _ => raise ValueError
  end.

End Architect3.

(* ===================================================================== *)
(** ** The diffusion operator as section 4.2 of the specification words it *)
(* ===================================================================== *)

Module DiffusionSpec.

(** Hadamard every data cell, bit-flip every data cell, a phase flip (Z)
    on the last cell controlled by all the others, undo the bit-flips,
    undo the Hadamards. *)
Definition five_steps (data : list qubit) : circuit :=
  H_on_each data ++
  X_on_each data ++
  [Gate GZ (removelast data) (last data 0)] ++
  X_on_each data ++
  H_on_each data.

(** Mean of the amplitudes of a state over [2^n] basis states. *)
Definition mean (n : nat) (st : state) : Amp.t :=
  Amp.mul (Amp.of_Q (1 # Pos.of_nat (dim n))) (Amp.sum (amplitudes n st)).

(** Reflection about the mean: every amplitude [a] becomes
    [2 * mean - a]. *)
Definition reflect_about_mean (n : nat) (st : state) : state :=
  map_state (fun a => Amp.sub (Amp.mul (Amp.of_Q 2) (mean n st)) a) st.

End DiffusionSpec.

(* ===================================================================== *)
(** ** grover_simple.py and truss_population.py: [calculate_fitness] *)
(* ===================================================================== *)

(** The arithmetic Python applies to the entries of a design: the code is
    the same for ints and floats, so the model is generic in the number
    type. *)
Class PyNum (A : Type) : Type := {
  py_add : A -> A -> A;
  py_sub : A -> A -> A;
  py_mul : A -> A -> A;
  py_truediv : A -> A -> A;
  py_abs : A -> A;
  py_int : Z -> A
}.

Class PyNumComm (A : Type) {H : PyNum A} : Prop := {
  py_mul_comm : forall x y : A, py_mul x y = py_mul y x
}.
Arguments PyNumComm A {H}.

Module GroverSimple.
Section Fitness.
Context {A : Type} `{PyNum A}.

Definition calculate_fitness (design : list A) (target_stress : A) : result A :=
  match design with
  | [num_nodes; total_length; max_stress] =>
      let stress_diff := py_abs (py_sub max_stress target_stress) in
      let length_penalty := py_truediv total_length (py_int 100) in
      let node_penalty := py_mul num_nodes (py_int 10) in
      let fitness := py_add (py_add stress_diff length_penalty) node_penalty in
      Ok fitness
  | _ => Raise ValueError
  end.

(** The call with [target_stress] left at its default. *)
Definition calculate_fitness_default (design : list A) : result A :=
  calculate_fitness design (py_int 200).
End Fitness.
End GroverSimple.

Module TrussPopulation.
Section Fitness.
Context {A : Type} `{PyNum A}.

Definition calculate_fitness (design : list A) (target_stress : A) : result A :=
  match design with
  | [num_nodes; total_length; max_stress] =>
      let stress_diff := py_abs (py_sub max_stress target_stress) in
      let length_penalty := py_truediv total_length (py_int 100) in
      let node_penalty := py_mul num_nodes (py_int 10) in
      let fitness := py_add (py_add stress_diff length_penalty) node_penalty in
      Ok fitness
  | _ => Raise ValueError
  end.

Definition calculate_fitness_default (design : list A) : result A :=
  calculate_fitness design (py_int 200).
End Fitness.
End TrussPopulation.

(** Exact rationals as one instance of Python's numbers. *)
#[global] Instance PyNum_Q : PyNum Q := {
  py_add x y := Qred (x + y)%Q;
  py_sub x y := Qred (x - y)%Q;
  py_mul x y := Qred (x * y)%Q;
  py_truediv x y := Qred (x / y)%Q;
  py_abs x := Qred (Qabs x);
  py_int z := inject_Z z
}.

(* ===================================================================== *)
(** ** entangled_turtles/drawing_utils.py: PNG and GIF capture *)
(* ===================================================================== *)

Module DrawingUtils.

Definition bbox : Type := (Z * Z * Z * Z)%type.

(** The collaborators of the two methods: whether [PIL] can be imported,
    and what the tkinter and ImageGrab calls answer. *)
Record env (image : Type) : Type := {
  pil_installed : bool;
  screen_update : result unit;
  canvas_geometry : result (Z * Z * Z * Z);   (* x, y, width, height *)
  image_grab : bbox -> result image;
  image_save : image -> string -> result unit
}.

(** What the methods read and write: the console and the two recording
    attributes of the [TurtleDrawer]. *)
Record world (image : Type) : Type := {
  console : list string;
  frames : list image;
  is_recording : bool
}.

Section Methods.
Variable image : Type.
Variable E : env image.

Definition io (A : Type) : Type := world image -> result A * world image.

Definition io_ret {A} (a : A) : io A := fun w => (Ok a, w).

Definition io_bind {A B} (m : io A) (k : A -> io B) : io B :=
  fun w => match m w with
           | (Ok a, w') => k a w'
           | (Raise e, w') => (Raise e, w')
           end.

Definition io_lift {A} (r : result A) : io A := fun w => (r, w).

Definition print (line : string) : io unit :=
  fun w => (Ok tt, {| console := console w ++ [line];
                      frames := frames w;
                      is_recording := is_recording w |}).

Definition append_frame (f : image) : io unit :=
  fun w => (Ok tt, {| console := console w;
                      frames := frames w ++ [f];
                      is_recording := is_recording w |}).

(** [from PIL import Image, ImageGrab] *)
Definition import_PIL : io unit :=
  if pil_installed E then io_ret tt else io_lift (Raise ImportError).

(** [try: body except ImportError: handler] *)
Definition try_except_ImportError (body handler : io unit) : io unit :=
  fun w => match body w with
           | (Raise ImportError, w') => handler w'
           | r => r
           end.

(** The shared body: update the screen, read the canvas geometry and
    grab that rectangle. *)
Definition grab_canvas : io image :=
  io_bind (io_lift (screen_update E)) (fun _ =>
  io_bind (io_lift (canvas_geometry E)) (fun '(x, y, width, height) =>
  io_lift (image_grab E (x, y, x + width, y + height)%Z))).

Definition save_drawing_as_png (filename : string) : io unit :=
  try_except_ImportError
    (io_bind import_PIL (fun _ =>
     io_bind grab_canvas (fun img =>
     io_bind (io_lift (image_save E img filename)) (fun _ =>
     print ("Drawing saved as " ++ filename)))))
    (io_bind (print "PIL (Python Imaging Library) is required for PNG export.") (fun _ =>
     print "Install it with: pip install Pillow")).

Definition capture_frame : io unit :=
  fun w =>
    if negb (is_recording w) then (Ok tt, w)
    else
      try_except_ImportError
        (io_bind import_PIL (fun _ =>
         io_bind grab_canvas (fun frame =>
         append_frame frame)))
        (io_bind (print "PIL (Python Imaging Library) is required for GIF creation.") (fun _ =>
         print "Install it with: pip install Pillow"))
        w.

End Methods.

(** [TurtleDrawer.__init__]: no frames, not recording. *)
Definition init_world (image : Type) : world image :=
  {| console := []; frames := []; is_recording := false |}.

(** A machine without Pillow; the other collaborators never get called. *)
Definition env_without_PIL : env unit :=
  {| pil_installed := false;
     screen_update := Ok tt;
     canvas_geometry := Ok (0, 0, 0, 0)%Z;
     image_grab := fun _ => Ok tt;
     image_save := fun _ _ => Ok tt |}.

End DrawingUtils.

(* ===================================================================== *)
(** ** quantum_architect.py (three rooms): the driver *)
(* ===================================================================== *)

Module Architect3Build.

(** Lines 61-65. *)
Definition diffusion (q0 q1 q2 : qubit) : builder unit :=
  append (H_on_each [q0; q1; q2]) ;;
  append (X_on_each [q0; q1; q2]) ;;
  append [controlled_by (H q2) [q0; q1]] ;;
  append (X_on_each [q0; q1; q2]) ;;
  append (H_on_each [q0; q1; q2]).

Definition build_grover_circuit : result circuit :=
  let qubits := LineQubit_range 4 in
  build
    (match qubits with
     | [q0; q1; q2; val] =>
         append (H_on_each [q0; q1; q2]) ;;
         for_range 2
           (Architect3.oracle_for_2_adj_public qubits ;;
            diffusion q0 q1 q2) ;;
         append [measure [q0; q1; q2] "result"]
     | _ => raise ValueError
     end).

End Architect3Build.

(* ===================================================================== *)
(** ** quantum_architect/quantum_architect.py (adjacency only) *)
(* ===================================================================== *)

Module ArchitectAdjacency.

Definition oracle_nonoverlapping_adjacency (qubits : list qubit) : builder unit :=
  match firstn 5 qubits with
  | [q0; q1; q2; q3; val] =>
      match firstn 3 (skipn 5 qubits) with
      | [a_adj0; a_adj1; a_xor] =>
          (* STEP 1, STEP 2 *)
          append [controlled_by (X a_adj0) [q0; q1]] ;;
          append [controlled_by (X a_adj1) [q2; q3]] ;;
          (* STEP 3 *)
          append [CNOT a_adj0 a_xor] ;;
          append [CNOT a_adj1 a_xor] ;;
          (* STEP 4 *)
          append [controlled_by (X val) [a_xor]] ;;
          (* STEP 5 *)
          append [CNOT a_adj1 a_xor] ;;
          append [CNOT a_adj0 a_xor] ;;
          append [controlled_by (X a_adj1) [q2; q3]] ;;
          append [controlled_by (X a_adj0) [q0; q1]]
      | _ => raise ValueError
      end
  | _ => raise ValueError
  end.

End ArchitectAdjacency.

(* ===================================================================== *)
(** ** quantum_architect/quantum_architect_muli_rule.py: the driver *)
(* ===================================================================== *)

Module MultiRuleBuild.

(** Lines 136-146. *)
Definition diffusion (q0 q1 q2 q3 : qubit) : builder unit :=
  append (H_on_each [q0; q1; q2; q3]) ;;
  append (X_on_each [q0; q1; q2; q3]) ;;
  append [controlled_by (H q3) [q0; q1; q2]] ;;
  append (X_on_each [q0; q1; q2; q3]) ;;
  append (H_on_each [q0; q1; q2; q3]).

Definition build_grover_circuit (num_iterations : Z) : result circuit :=
  let qubits := LineQubit_range 9 in
  build
    (match firstn 4 qubits with
     | [q0; q1; q2; q3] =>
         val <- index qubits 4 ;;
         append (H_on_each [q0; q1; q2; q3]) ;;
         for_range num_iterations
           (MultiRule.oracle_count_nonoverlapping_adjacency qubits ;;
            diffusion q0 q1 q2 q3) ;;
         append [measure [q0; q1; q2; q3] "result"]
     | _ => raise ValueError
     end).

End MultiRuleBuild.

(* ===================================================================== *)
(** ** The text reports: binary strings of the outcomes *)
(* ===================================================================== *)

Module Report.
Local Open Scope string_scope.

(** Binary digits of a positive number, most significant first. *)
Fixpoint pos_digits (p : positive) : string :=
  match p with
  | xH => "1"
  | xO q => pos_digits q ++ "0"
  | xI q => pos_digits q ++ "1"
  end.

Fixpoint zeros (k : nat) : string :=
  match k with
  | O => ""
  | S k' => String "0" (zeros k')
  end.

(** [format(n, '0{width}b')]: the binary digits, padded on the left with
    zeros up to [width] characters. *)
Definition format_b (width : nat) (n : N) : string :=
  let digits := match n with N0 => "0" | Npos p => pos_digits p end in
  zeros (width - String.length digits) ++ digits.

(** [int(s, 2)] on a string of binary digits; other strings are rejected
    (the scripts pass only strings made by [format_b]). *)
Fixpoint int2_from (acc : N) (s : string) : result N :=
  match s with
  | EmptyString => Ok acc
  | String ch rest =>
      if Ascii.eqb ch "0" then int2_from (2 * acc) rest
      else if Ascii.eqb ch "1" then int2_from (2 * acc + 1) rest
      else Raise ValueError
  end.

Definition int_base2 (s : string) : result N :=
  match s with
  | EmptyString => Raise ValueError
  | _ => int2_from 0 s
  end.

(** [s.count('1')] *)
Fixpoint count_ones (s : string) : nat :=
  match s with
  | EmptyString => 0
  | String ch rest => (if Ascii.eqb ch "1" then 1 else 0) + count_ones rest
  end.

(** [s in strings] *)
Definition string_in (s : string) (strings : list string) : bool :=
  existsb (String.eqb s) strings.

(** grover.py, lines 127-133: the validity flag of a reported outcome. *)
Definition grover_is_valid (state : N) : bool :=
  let binary := format_b 4 state in
  let num_public := count_ones binary in
  Nat.eqb num_public 2.

(** grover.py, lines 146-149: the states drawn in green. *)
Definition grover_plot_valid_states : list string :=
  ["1100"; "1010"; "1001"; "0110"; "0101"; "0011"].

(** quantum_architect_v2.py, lines 192-195, and [print_results] of
    draw_utils.py. *)
Definition v2_is_valid (state : N) : bool :=
  let bstr := format_b 4 state in
  string_in bstr ["1100"; "0011"].

End Report.

(* ===================================================================== *)
(** ** grover_simple.py: the oracle of the best design and the driver *)
(* ===================================================================== *)

(** [builder] actions that come from a plain result. *)
Definition lift_result {A} (r : result A) : builder A :=
  fun c => (r, c).

(** [[f(x) for x in xs]] for an [f] that may raise. *)
Fixpoint map_result {A B} (f : A -> result B) (xs : list A) : result (list B) :=
  match xs with
  | [] => Ok []
  | x :: xs' =>
      match f x with
      | Ok y => match map_result f xs' with
                | Ok ys => Ok (y :: ys)
                | Raise e => Raise e
                end
      | Raise e => Raise e
      end
  end.

(* ===================================================================== *)
(** ** The plots: bar heights read from a histogram *)
(* ===================================================================== *)

(** grover.py lines 144-154, quantum_architect_v2.py lines 201-207 and
    [plot_results] of draw_utils.py share these lines. *)
Module Plots.
Import Report.

(** [result.histogram(key='result')]: a dict from outcomes to counts, as
    its items. *)
Definition histogram : Type := list (N * N).

(** [counts.get(key, default)] *)
Definition get (counts : histogram) (key default : N) : N :=
  match find (fun item => N.eqb (fst item) key) counts with
  | Some item => snd item
  | None => default
  end.

(** [states = [format(i, '04b') for i in range(16)]] *)
Definition states : list string :=
  map (fun i => format_b 4 (N.of_nat i)) (seq 0 16).

(** [data = [counts.get(int(s, 2), 0) for s in states]] *)
Definition data (counts : histogram) : result (list N) :=
  map_result (fun s => match int_base2 s with
                       | Ok key => Ok (get counts key 0%N)
                       | Raise e => Raise e
                       end)
             states.

End Plots.

(** Ordering and float literals of Python's numbers, next to [PyNum]. *)
Class PyOrd (A : Type) : Type := {
  py_lt : A -> A -> bool;
  py_1e_minus_6 : A
}.

#[global] Instance PyOrd_Q : PyOrd Q := {
  py_lt x y := negb (Qle_bool y x);
  py_1e_minus_6 := (1 # 1000000)%Q
}.

Module GroverSimpleCircuit.
Section Numbers.
Context {A : Type} {HN : PyNum A} {HO : PyOrd A}.

Definition truss_designs : list (list A) :=
  map (map py_int)
    [ [4; 120; 250];
      [5; 150; 200];
      [6; 180; 180];
      [4; 130; 220];
      [5; 160; 190];
      [6; 200; 150];
      [4; 140; 210];
      [5; 170; 170] ]%Z.

Definition num_qubits : nat := 3.
Definition qubits : list qubit := LineQubit_range num_qubits.
Definition fitness_qubits : list qubit :=
  map (fun i => i + num_qubits) (seq 0 num_qubits).

(** [min(xs)]: ValueError on an empty list; a later item replaces the
    current minimum only when it compares less. *)
Definition py_min (xs : list A) : result A :=
  match xs with
  | [] => Raise ValueError
  | x :: rest => Ok (fold_left (fun m y => if py_lt y m then y else m) rest x)
  end.

(** [abs(fitness - min_fitness) < 1e-6] *)
Definition is_minimal (min_fitness fitness : A) : bool :=
  py_lt (py_abs (py_sub fitness min_fitness)) py_1e_minus_6.

(** The two loops [for j, bit in enumerate(binary): if bit == '0': ...]. *)
Definition x_where_zero_char (qubits : list qubit) (binary : string) : builder unit :=
  for_each (enumerate (list_ascii_of_string binary))
    (fun '(j, bit) =>
       if Ascii.eqb bit "0"
       then (q <- index qubits j ;; append [X q])
       else ret tt).

(** Body of the [if]: mark the basis state of index [i]. *)
Definition mark_state (qubits : list qubit) (i : nat) : builder unit :=
  let binary := Report.format_b num_qubits (N.of_nat i) in
  x_where_zero_char qubits binary ;;
  (q0 <- index qubits 0 ;;
   append [controlled_by (Gate GZ [] q0) (skipn 1 qubits)]) ;;
  x_where_zero_char qubits binary.

(** [truss_designs] is the module-level list the function reads. *)
Definition oracle_for_best_design (truss_designs : list (list A))
    (qubits fitness_qubits : list qubit) : builder unit :=
  fitness_values <-
    lift_result (map_result GroverSimple.calculate_fitness_default truss_designs) ;;
  min_fitness <- lift_result (py_min fitness_values) ;;
  let aux := 2 * num_qubits in
  for_each (enumerate fitness_values)
    (fun '(i, fitness) =>
       if is_minimal min_fitness fitness
       then mark_state qubits i
       else ret tt).

Definition build_grover_circuit : result circuit :=
  build
    (append (H_on_each qubits) ;;
     let num_iterations := 1%Z in
     for_range num_iterations
       (oracle_for_best_design truss_designs qubits fitness_qubits ;;
        append (H_on_each qubits) ;;
        append (X_on_each qubits) ;;
        (last_qubit <- index qubits (List.length qubits - 1) ;;
         append [controlled_by (H last_qubit) (removelast qubits)]) ;;
        append (X_on_each qubits) ;;
        append (H_on_each qubits)) ;;
     append [measure qubits "result"]).

End Numbers.
End GroverSimpleCircuit.

(* ===================================================================== *)
(** ** entangled_turtles/entangled_turtles.py: the circuit of the pair *)
(* ===================================================================== *)

Module EntangledTurtles.

(** [cirq.GridQubit(0, 0)] and [cirq.GridQubit(0, 1)], in the order the
    simulator sorts them. *)
Definition qubit1 : qubit := 0.
Definition qubit2 : qubit := 1.

(** [self.circuit = cirq.Circuit()] *)
Definition reset_circuit : builder unit := fun _ => (Ok tt, []).

(** The methods act on the [circuit] attribute of the object. *)
Definition create_entanglement : builder unit :=
  append [H qubit1] ;;
  append [CNOT qubit1 qubit2].

(** Lines 82-89 of [measure_entangled_states]: the circuit that is then
    sampled once. *)
Definition measure_entangled_states_circuit : builder unit :=
  reset_circuit ;;
  create_entanglement ;;
  append [measure [qubit1] "q1"] ;;
  append [measure [qubit2] "q2"].

End EntangledTurtles.

(* ===================================================================== *)
(** ** entangled_turtles/drawing_utils.py: recording and saving a GIF *)
(* ===================================================================== *)

Module DrawingGif.
Import DrawingUtils.

Section Methods.
Variable image : Type.
Variable E : env image.

(** [frames[0].save(filename, save_all=True, append_images=frames[1:],
    optimize=True, duration=duration, loop=0)] *)
Variable gif_save : image -> string -> list image -> Z -> result unit.

(** [str(e)] of a caught exception. *)
Variable exn_text : exn -> string.

Definition start_gif_recording : io image unit :=
  fun w => (Ok tt, {| console := console w; frames := []; is_recording := true |}).

Definition save_as_gif (filename : string) (duration : Z) : io image unit :=
  fun w =>
    match frames w with
    | [] => print "No frames recorded. Call start_gif_recording() first." w
    | first :: rest =>
        match gif_save first filename rest duration with
        | Ok _ => print ("Animation saved as " ++ filename) w
        | Raise e => print ("Error saving GIF: " ++ exn_text e) w
        end
    end.

(** [for _ in range(n): body] *)
Fixpoint io_repeat (n : nat) (body : io image unit) : io image unit :=
  match n with
  | O => io_ret tt
  | S n' => io_bind body (fun _ => io_repeat n' body)
  end.

(** The export calls of [main], with the drawing between them left out:
    start recording, one [capture_frame] per step, then the PNG and the
    GIF. *)
Definition export_sequence (steps : nat) (png gif : string) : io image unit :=
  io_bind start_gif_recording (fun _ =>
  io_bind (io_repeat steps (capture_frame E)) (fun _ =>
  io_bind (save_drawing_as_png E png) (fun _ =>
  save_as_gif gif 100))).

End Methods.
End DrawingGif.

(* ===================================================================== *)
(** ** Vocabulary of the properties *)
(* ===================================================================== *)

(** [true] when exactly two of the four bits are set. *)
Definition exactly_two (q0 q1 q2 q3 : bool) : bool :=
  Nat.eqb (Nat.b2n q0 + Nat.b2n q1 + Nat.b2n q2 + Nat.b2n q3) 2.

(** The NOT pack of a pattern: an X on every cell whose required value is 0. *)
Definition not_pack (pattern : list nat) : list op :=
  flat_map (fun '(i, bit_val) => if Nat.eqb bit_val 0 then [X i] else [])
           (enumerate pattern).

(** The predicate of quantum_architect_v2.py: the layout is 1100 or 0011. *)
Definition nonoverlapping_adjacency (q0 q1 q2 q3 : bool) : bool :=
  (q0 && q1 && negb q2 && negb q3) || (negb q0 && negb q1 && q2 && q3).

(** The phase the three-room oracle applies to the basis input q0 q1 q2:
    -1 on 110 only. *)
Definition phase_110 (q0 q1 q2 : bool) : Amp.t :=
  if q0 && q1 && negb q2 then Amp.opp Amp.one else Amp.one.

(** The qubits a circuit measures. *)
Definition measured_qubits (c : circuit) : list qubit :=
  flat_map (fun o => match o with Measure qs _ => qs | Gate _ _ _ => [] end) c.

(** Probability that sampling the circuit, started in the all-zero state
    of [n] qubits, reports a value in [valid]. *)
Definition success_probability (n : nat) (c : circuit) (valid : list N) : Amp.t :=
  prob_in n (measured_qubits c) valid (run n c (basis n 0)).

Definition all_outcomes (m : nat) : list N := map N.of_nat (seq 0 (2 ^ m)).

(** The block the scripts append: its third step is a Hadamard on the last
    data cell controlled by the other three. *)
Definition appended_block : circuit :=
  H_on_each [0; 1; 2; 3] ++
  X_on_each [0; 1; 2; 3] ++
  [Gate GH [0; 1; 2] 3] ++
  X_on_each [0; 1; 2; 3] ++
  H_on_each [0; 1; 2; 3].

(** A builder is uniform when running it on a circuit [c] gives what it
    gives on the empty circuit, appended to [c]. *)
Definition uniform {A} (m : builder A) : Prop :=
  forall c, m c = (fst (m []), c ++ snd (m [])).

(** Run on any circuit, [m] returns [a] and appends exactly [ops]. *)
Definition emits {A} (m : builder A) (a : A) (ops : list op) : Prop :=
  forall c, m c = (Ok a, c ++ ops).

(** One pass of the loop of grover.py: the oracle, then the appended
    block. *)
Definition grover_iteration : circuit :=
  flat_map (fun p => not_pack p ++ [Gate GX [0; 1; 2; 3] 4] ++ not_pack p)
           Grover.two_public_patterns
  ++ appended_block.

(** All amplitudes of [st] whose bit for qubit [q] is [b] are zero. *)
Definition vanishes_where (n : nat) (q : qubit) (b : bool) (st : state) : Prop :=
  forall i, qbit n q i = b -> amp_at st i = Amp.zero.

(** The operation stays inside the register and does not mention [q]. *)
Definition avoids (n : nat) (q : qubit) (o : op) : bool :=
  forallb (fun x => (x <? n) && negb (x =? q)) (op_qubits o).

(** The half of a state of [S n] qubits in which the last qubit (index
    [n]) has value [b], read as a state of the first [n] qubits. *)
Definition sector (n : nat) (b : bool) (st : state) : state :=
  tabulate n (fun j => amp_at st (2 * j + N.b2n b)%N).

Module DrawingSpec.
Import DrawingUtils.

Definition with_console {image} (w : world image) (lines : list string) : world image :=
  {| console := console w ++ lines;
     frames := frames w;
     is_recording := is_recording w |}.

Definition png_notice : list string :=
  [ "PIL (Python Imaging Library) is required for PNG export.";
    "Install it with: pip install Pillow" ]%string.

Definition gif_notice : list string :=
  [ "PIL (Python Imaging Library) is required for GIF creation.";
    "Install it with: pip install Pillow" ]%string.

(** The reading of the claim for a method: without PIL, the call returns
    normally and has printed a notice. *)
Definition degrades_with_notice {image} (method : io image unit)
    (w : world image) : Prop :=
  exists notice,
    notice <> [] /\ method w = (Ok tt, with_console w notice).

(** A drawer right after [start_gif_recording]. *)
Definition recording_world : world unit :=
  {| console := []; frames := []; is_recording := true |}.

End DrawingSpec.

(** cirq refuses an operation that names one qubit twice (a control that
    repeats or that is also the target, a qubit measured twice), which the
    constructors of this file do not check; an operation on distinct qubits
    is one cirq builds as well. *)
Definition acts_on_distinct_qubits (o : op) : Prop := NoDup (op_qubits o).

(** The operation [o] with every qubit [q] replaced by [f q]. *)
Definition rename_op (f : qubit -> qubit) (o : op) : op :=
  match o with
  | Gate g cs t => Gate g (map f cs) (f t)
  | Measure qs key => Measure (map f qs) key
  end.

(** Decides that an operation on the cells 0, ..., n-1 names none of them
    twice. *)
Definition distinct_below (n : nat) (o : op) : bool :=
  forallb (fun q => q <? n) (op_qubits o) &&
  Nat.eqb (List.length (nodup Nat.eq_dec (op_qubits o))) (List.length (op_qubits o)).

Module ConstructionSpec.

(** The cells a predicate declares: its data cells (its arity), the marker
    and its ancillas. *)
Definition declared_cells (arity ancillas : nat) : nat := arity + 1 + ancillas.

(** The reading of the claim for an oracle and a register: a register
    that does not have the declared cells makes the call raise. *)
Definition rejects_mismatch (cells : nat) (oracle : list qubit -> builder unit)
    (qubits : list qubit) : Prop :=
  List.length qubits <> cells ->
  exists e c, oracle qubits [] = (Raise e, c).

End ConstructionSpec.

(* ===================================================================== *)
(** ** Vocabulary of the further properties *)
(* ===================================================================== *)

(** The index a (controlled) X sends basis index [i] to. *)
Definition classical_step (n : nat) (o : op) (i : N) : N :=
  match o with
  | Gate GX cs t => if forallb (fun c => qbit n c i) cs then flip n t i else i
  | _ => i
  end.

Definition classical_run (n : nat) (c : circuit) (i : N) : N :=
  fold_left (fun j o => classical_step n o j) c i.

(** A (controlled) X inside the register whose target is not one of its
    controls, or a measurement. *)
Definition x_only (n : nat) (o : op) : bool :=
  match o with
  | Gate GX cs t =>
      (t <? n) && forallb (fun c => (c <? n) && negb (c =? t)) cs
  | Gate _ _ _ => false
  | Measure _ _ => true
  end.

Definition is_gate (o : op) : bool :=
  match o with Gate _ _ _ => true | Measure _ _ => false end.

(** "Exactly two of the data bits are 1" at basis index [i] of an
    [n]-qubit register. *)
Definition exactly_two_at (n : nat) (i : N) : bool :=
  exactly_two (qbit n 0 i) (qbit n 1 i) (qbit n 2 i) (qbit n 3 i).

(** The data bits of index [i] spell the pattern. *)
Definition matches_pattern (n : nat) (p0 p1 p2 p3 : bool) (i : N) : bool :=
  Bool.eqb (qbit n 0 i) p0 && Bool.eqb (qbit n 1 i) p1
  && Bool.eqb (qbit n 2 i) p2 && Bool.eqb (qbit n 3 i) p3.

(** What the oracle of quantum_architect_v2.py adds to val when the
    ancillas hold [a_count], [a_adj0], [a_adj1], [a_xor]. *)
Definition v2_mark (q0 q1 q2 q3 a_count a_adj0 a_adj1 a_xor : bool) : bool :=
  xorb a_count (exactly_two q0 q1 q2 q3)
  && xorb a_xor (xorb (xorb a_adj0 (q0 && q1)) (xorb a_adj1 (q2 && q3))).

Definition v2_mark_at (i : N) : bool :=
  v2_mark (qbit 9 0 i) (qbit 9 1 i) (qbit 9 2 i) (qbit 9 3 i)
          (qbit 9 5 i) (qbit 9 6 i) (qbit 9 7 i) (qbit 9 8 i).

(** What the adjacency-only oracle adds to val. *)
Definition adjacency_mark (q0 q1 q2 q3 a_adj0 a_adj1 a_xor : bool) : bool :=
  xorb a_xor (xorb (xorb a_adj0 (q0 && q1)) (xorb a_adj1 (q2 && q3))).

Definition adjacency_mark_at (i : N) : bool :=
  adjacency_mark (qbit 9 0 i) (qbit 9 1 i) (qbit 9 2 i) (qbit 9 3 i)
                 (qbit 9 5 i) (qbit 9 6 i) (qbit 9 7 i).

(** The gates of one oracle call of quantum_architect_v2.py on the nine
    qubits, and of one pass of its loop. *)
Definition v2_toggles (patterns : list (list nat)) : circuit :=
  flat_map (fun p => not_pack p ++ [Gate GX [0; 1; 2; 3] 5] ++ not_pack p) patterns.

Definition v2_oracle_ops : circuit :=
  v2_toggles ArchitectV2.two_of_four_patterns
  ++ [Gate GX [0; 1] 6; Gate GX [2; 3] 7; CNOT 6 8; CNOT 7 8;
      Gate GX [5; 8] 4;
      CNOT 7 8; CNOT 6 8; Gate GX [2; 3] 7; Gate GX [0; 1] 6]
  ++ v2_toggles (rev ArchitectV2.two_of_four_patterns).

Definition v2_iteration : circuit := v2_oracle_ops ++ appended_block.

(** The four ancillas a_count, a_adj0, a_adj1, a_xor. *)
Definition v2_ancillas : list qubit := [5; 6; 7; 8].

Definition one_sixteenth : Amp.t := Amp.mk (1 # 16) 0.
Definition one_half : Amp.t := Amp.mk (1 # 2) 0.

(** The probabilities of the outcomes 00, 01, 10, 11 of the two measured
    bits, q1 first. *)
Definition pair_distribution (c : circuit) : list Amp.t :=
  map (fun v => success_probability 2 c [v]) [0; 1; 2; 3]%N.

(** The circuit after [n] calls of [create_entanglement] on an empty
    circuit, followed by the two measurements. *)
Definition entangled_n_times (n : nat) : circuit :=
  concat (repeat [H 0; CNOT 0 1] n) ++ [measure [0] "q1"; measure [1] "q2"].

(** Probability that the two measured bits differ. *)
Definition disagreement (c : circuit) : Amp.t :=
  success_probability 2 c [1; 2]%N.

(** The gates that flip the phase of the basis state of index [i] of the
    three design qubits. *)
Definition mark_ops (i : nat) : circuit :=
  let pack :=
    flat_map (fun '(j, bit) => if Ascii.eqb bit "0" then [X j] else [])
             (enumerate (list_ascii_of_string (Report.format_b 3 (N.of_nat i)))) in
  pack ++ [Gate GZ [1; 2] 0] ++ pack.

(** The gates for a list of flags, one per design index, from index
    [start] on. *)
Fixpoint phase_ops_from (start : nat) (marks : list bool) : circuit :=
  match marks with
  | [] => []
  | b :: rest => (if b then mark_ops start else []) ++ phase_ops_from (S start) rest
  end.

Definition phase_ops (marks : list bool) : circuit := phase_ops_from 0 marks.

Definition phase_of (marked : bool) : Amp.t :=
  if marked then Amp.opp Amp.one else Amp.one.

(** A machine with Pillow, on which every screen call succeeds. *)
Definition env_with_PIL : DrawingUtils.env unit :=
  {| DrawingUtils.pil_installed := true;
     DrawingUtils.screen_update := Ok tt;
     DrawingUtils.canvas_geometry := Ok (10, 20, 300, 200)%Z;
     DrawingUtils.image_grab := fun _ => Ok tt;
     DrawingUtils.image_save := fun _ _ => Ok tt |}.

(** A machine with Pillow whose window has been closed. *)
Definition env_closed_window : DrawingUtils.env unit :=
  {| DrawingUtils.pil_installed := true;
     DrawingUtils.screen_update := Raise (OtherError "TclError");
     DrawingUtils.canvas_geometry := Ok (10, 20, 300, 200)%Z;
     DrawingUtils.image_grab := fun _ => Ok tt;
     DrawingUtils.image_save := fun _ _ => Ok tt |}.

(* ===================================================================== *)
(** * Properties *)
(* ===================================================================== *)

(** ** The gates on one and two qubits *)

Example X_flips : run 1 [X 0] (ket [false]) = ket [true].
Proof. reflexivity. Qed.

Example H_superposes :
  amplitudes 1 (run 1 [H 0] (ket [true])) = [Amp.inv_sqrt2; Amp.opp Amp.inv_sqrt2].
Proof. reflexivity. Qed.

Example H_twice (b : bool) : run 1 [H 0; H 0] (ket [b]) = ket [b].
Proof. destruct b; reflexivity. Qed.

Example CNOT_copies (c t : bool) :
  run 2 [CNOT 0 1] (ket [c; t]) = ket [c; xorb c t].
Proof. destruct c, t; reflexivity. Qed.

Example CZ_phase (c t : bool) :
  run 2 [CZ 0 1] (ket [c; t]) =
  scale (if c && t then Amp.opp Amp.one else Amp.one) (ket [c; t]).
Proof. destruct c, t; reflexivity. Qed.

(** ** Oracles on computational-basis inputs *)

(** C4: on the six allocated qubits of grover.py, the oracle is, pattern by
    pattern, the NOT pack, a 4-controlled X on val (qubit 4) and the NOT
    pack again; on every basis input with val at 0 it flips val exactly
    when two of the four data bits are 1 and gives the data bits back
    unchanged. *)
Theorem oracle_two_public_rooms_marks_exactly_two :
  forall q0 q1 q2 q3 : bool,
  exists c,
    build (Grover.oracle_two_public_rooms (LineQubit_range 6)) = Ok c /\
    c = flat_map (fun p => not_pack p ++ [Gate GX [0; 1; 2; 3] 4] ++ not_pack p)
                 Grover.two_public_patterns /\
    run 6 c (ket [q0; q1; q2; q3; false; false]) =
    ket [q0; q1; q2; q3; exactly_two q0 q1 q2 q3; false].
Proof.
  intros q0 q1 q2 q3. eexists. split; [vm_compute; reflexivity|].
  split; [reflexivity|].
  destruct q0, q1, q2, q3; vm_compute; reflexivity.
Qed.

Lemma multi_rule_oracle_same :
  MultiRule.oracle_count_nonoverlapping_adjacency =
  ArchitectV2.oracle_count_nonoverlapping_adjacency.
Proof. reflexivity. Qed.

(** C1: for each of the 16 basis inputs of the data qubits, with val and
    the four ancillas at zero, the gates emitted by
    [oracle_count_nonoverlapping_adjacency] (in both files) flip val
    exactly for 1100 and 0011 and leave a_count, a_adj0, a_adj1 and a_xor
    at zero. *)
Theorem oracle_count_nonoverlapping_adjacency_marks_and_uncomputes :
  forall q0 q1 q2 q3 : bool,
  exists c,
    build (ArchitectV2.oracle_count_nonoverlapping_adjacency (LineQubit_range 9)) = Ok c /\
    build (MultiRule.oracle_count_nonoverlapping_adjacency (LineQubit_range 9)) = Ok c /\
    run 9 c (ket [q0; q1; q2; q3; false; false; false; false; false]) =
    ket [q0; q1; q2; q3; nonoverlapping_adjacency q0 q1 q2 q3;
         false; false; false; false].
Proof.
  intros q0 q1 q2 q3. eexists. split; [vm_compute; reflexivity|].
  split; [reflexivity|].
  destruct q0, q1, q2, q3; vm_compute; reflexivity.
Qed.

Lemma oracle_for_2_adj_public_action :
  forall q0 q1 q2 : bool,
  exists c,
    build (Architect3.oracle_for_2_adj_public (LineQubit_range 4)) = Ok c /\
    run 4 c (ket [q0; q1; q2; false]) =
    scale (phase_110 q0 q1 q2) (ket [q0; q1; q2; false]).
Proof.
  intros q0 q1 q2. eexists. split; [vm_compute; reflexivity|].
  destruct q0, q1, q2; vm_compute; reflexivity.
Qed.

(** C3 at the input 011: the oracle of quantum_architect.py hands the
    basis state back with amplitude +1, so 011 gets no -1 phase; the
    input 110 is the only one of the two that is marked. *)
Theorem oracle_for_2_adj_public_leaves_011_unmarked :
  exists c,
    build (Architect3.oracle_for_2_adj_public (LineQubit_range 4)) = Ok c /\
    run 4 c (ket [false; true; true; false]) = ket [false; true; true; false] /\
    run 4 c (ket [true; true; false; false]) =
    scale (Amp.opp Amp.one) (ket [true; true; false; false]).
Proof.
  eexists. split; [vm_compute; reflexivity|].
  split; vm_compute; reflexivity.
Qed.

(** ** Amplitudes as real numbers *)

Lemma sqrt2_sq : (sqrt 2 * sqrt 2 = 2)%R.
Proof. apply sqrt_sqrt. lra. Qed.

Lemma sqrt2_lower : (1414 / 1000 < sqrt 2)%R.
Proof.
  rewrite <- (sqrt_square (1414 / 1000)) by lra.
  apply sqrt_lt_1_alt. lra.
Qed.

Lemma sqrt2_upper : (sqrt 2 < 1415 / 1000)%R.
Proof.
  rewrite <- (sqrt_square (1415 / 1000)) by lra.
  apply sqrt_lt_1_alt. lra.
Qed.

Lemma Q2R_Qred (q : Q) : Q2R (Qred q) = Q2R q.
Proof. apply Qeq_eqR, Qred_correct. Qed.

Lemma toR_zero : Amp.toR Amp.zero = 0%R.
Proof. unfold Amp.toR, Amp.zero, Q2R; simpl. lra. Qed.

Lemma toR_one : Amp.toR Amp.one = 1%R.
Proof. unfold Amp.toR, Amp.one, Q2R; simpl. lra. Qed.

Lemma toR_add (a b : Amp.t) :
  Amp.toR (Amp.add a b) = (Amp.toR a + Amp.toR b)%R.
Proof.
  unfold Amp.toR, Amp.add; cbn [Amp.rat Amp.irr].
  rewrite !Q2R_Qred, !Q2R_plus. lra.
Qed.

Lemma toR_opp (a : Amp.t) : Amp.toR (Amp.opp a) = (- Amp.toR a)%R.
Proof.
  unfold Amp.toR, Amp.opp; cbn [Amp.rat Amp.irr].
  rewrite !Q2R_Qred, !Q2R_opp. lra.
Qed.

Lemma toR_sub (a b : Amp.t) :
  Amp.toR (Amp.sub a b) = (Amp.toR a - Amp.toR b)%R.
Proof. unfold Amp.sub. rewrite toR_add, toR_opp. lra. Qed.

Lemma toR_mul (a b : Amp.t) :
  Amp.toR (Amp.mul a b) = (Amp.toR a * Amp.toR b)%R.
Proof.
  unfold Amp.toR, Amp.mul; cbn [Amp.rat Amp.irr].
  rewrite !Q2R_Qred, !Q2R_plus, !Q2R_mult.
  replace (Q2R (2 # 1)) with 2%R by (unfold Q2R; simpl; lra).
  pose proof sqrt2_sq as Hs.
  set (s := sqrt 2) in *.
  replace ((Q2R (Amp.rat a) + Q2R (Amp.irr a) * s) *
           (Q2R (Amp.rat b) + Q2R (Amp.irr b) * s))%R
    with (Q2R (Amp.rat a) * Q2R (Amp.rat b)
          + Q2R (Amp.irr a) * Q2R (Amp.irr b) * (s * s)
          + (Q2R (Amp.rat a) * Q2R (Amp.irr b)
             + Q2R (Amp.irr a) * Q2R (Amp.rat b)) * s)%R by ring.
  rewrite Hs. ring.
Qed.

(** The Hadamard entry is 1 / sqrt 2. *)
Lemma toR_inv_sqrt2 : (Amp.toR Amp.inv_sqrt2 * sqrt 2 = 1)%R.
Proof.
  unfold Amp.toR, Amp.inv_sqrt2, Q2R; simpl.
  pose proof sqrt2_sq. nra.
Qed.

(** ** Success probabilities of the built circuits *)

Lemma grover_one_iteration_probability :
  exists c,
    Grover.build_grover_circuit 1 = Ok c /\
    success_probability 6 c Grover.valid_states = Amp.mk (63 # 128) (15 # 256) /\
    success_probability 6 c (all_outcomes 4) = Amp.one.
Proof.
  eexists. split; [vm_compute; reflexivity|].
  split; vm_compute; reflexivity.
Qed.

(** C5: one Grover iteration of grover.py ends, before the measurement,
    in a state whose probability on the six exactly-two-of-four layouts is
    63/128 + (15/256) sqrt 2, strictly above the uniform 6/16. *)
Theorem grover_one_iteration_beats_uniform :
  exists c,
    Grover.build_grover_circuit 1 = Ok c /\
    (6 / 16 < Amp.toR (success_probability 6 c Grover.valid_states))%R.
Proof.
  destruct grover_one_iteration_probability as (c & Hc & Hp & _).
  exists c. split; [exact Hc|].
  rewrite Hp. unfold Amp.toR, Q2R; simpl.
  pose proof sqrt2_lower. lra.
Qed.

Lemma architect_v2_probabilities :
  exists c1 c2 c3,
    ArchitectV2.build_grover_circuit 1 = Ok c1 /\
    ArchitectV2.build_grover_circuit 2 = Ok c2 /\
    ArchitectV2.build_grover_circuit 3 = Ok c3 /\
    success_probability 9 c1 ArchitectV2.valid_states = Amp.mk (37 # 128) (21 # 256) /\
    success_probability 9 c2 ArchitectV2.valid_states = Amp.mk (169 # 512) (105 # 1024) /\
    success_probability 9 c3 ArchitectV2.valid_states = Amp.mk (361 # 2048) (105 # 4096).
Proof.
  do 3 eexists.
  split; [vm_compute; reflexivity|].
  split; [vm_compute; reflexivity|].
  split; [vm_compute; reflexivity|].
  split; [vm_compute; reflexivity|].
  split; vm_compute; reflexivity.
Qed.

(** C6: for the circuits of quantum_architect_v2.py the probability of
    the valid set {1100, 0011} before the measurement rises from one
    iteration to two and falls from two to three; two iterations beat
    three. *)
Theorem architect_v2_over_iteration :
  exists c1 c2 c3,
    ArchitectV2.build_grover_circuit 1 = Ok c1 /\
    ArchitectV2.build_grover_circuit 2 = Ok c2 /\
    ArchitectV2.build_grover_circuit 3 = Ok c3 /\
    (Amp.toR (success_probability 9 c1 ArchitectV2.valid_states)
     < Amp.toR (success_probability 9 c2 ArchitectV2.valid_states))%R /\
    (Amp.toR (success_probability 9 c3 ArchitectV2.valid_states)
     < Amp.toR (success_probability 9 c2 ArchitectV2.valid_states))%R.
Proof.
  destruct architect_v2_probabilities as (c1 & c2 & c3 & H1 & H2 & H3 & P1 & P2 & P3).
  exists c1, c2, c3. repeat (split; [assumption|]).
  rewrite P1, P2, P3. unfold Amp.toR, Q2R; simpl.
  pose proof sqrt2_lower. pose proof sqrt2_upper. split; lra.
Qed.

(** ** The diffusion block *)

(** The specification's five steps are the reflection about the mean, up
    to the global sign the textbook circuit carries. *)
Lemma five_steps_reflect :
  forall q0 q1 q2 q3 : bool,
    run 4 (DiffusionSpec.five_steps [0; 1; 2; 3]) (ket [q0; q1; q2; q3]) =
    scale (Amp.opp Amp.one)
          (DiffusionSpec.reflect_about_mean 4 (ket [q0; q1; q2; q3])).
Proof. intros [] [] [] []; vm_compute; reflexivity. Qed.

Lemma diffusion_blocks_built :
  build (Grover.diffusion (LineQubit_range 6)) = Ok appended_block /\
  build (ArchitectV2.diffusion 0 1 2 3) = Ok appended_block.
Proof. split; reflexivity. Qed.

(** C2 on the data register in state 0000: the block of grover.py and of
    quantum_architect_v2.py is not the five-step sequence, and the state it
    produces is neither the reflection about the mean of the input nor its
    opposite. *)
Theorem diffusion_block_is_not_the_reflection :
  exists c,
    build (Grover.diffusion (LineQubit_range 6)) = Ok c /\
    build (ArchitectV2.diffusion 0 1 2 3) = Ok c /\
    c <> DiffusionSpec.five_steps [0; 1; 2; 3] /\
    let input := ket [false; false; false; false] in
    run 4 c input <> DiffusionSpec.reflect_about_mean 4 input /\
    run 4 c input <> scale (Amp.opp Amp.one) (DiffusionSpec.reflect_about_mean 4 input) /\
    run 4 c input <> run 4 (DiffusionSpec.five_steps [0; 1; 2; 3]) input.
Proof.
  exists appended_block.
  split; [reflexivity|]. split; [reflexivity|].
  split; [discriminate|].
  cbv zeta.
  split; [|split]; intro Heq;
    apply (f_equal (fun st => amp_at st 0)) in Heq;
    vm_compute in Heq; discriminate.
Qed.

(** ** Builders only ever append *)

Lemma uniform_ret {A} (a : A) : uniform (ret a).
Proof. intros c. unfold ret. cbn [fst snd]. now rewrite app_nil_r. Qed.

Lemma uniform_raise {A} (e : exn) : uniform (@raise A e).
Proof. intros c. unfold raise. cbn [fst snd]. now rewrite app_nil_r. Qed.

Lemma uniform_append (ops : list op) : uniform (append ops).
Proof. intros c. reflexivity. Qed.

Lemma uniform_index {A} (xs : list A) (i : nat) : uniform (index xs i).
Proof.
  unfold index. destruct (nth_error xs i); [apply uniform_ret | apply uniform_raise].
Qed.

Lemma uniform_bind {A B} (m : builder A) (k : A -> builder B) :
  uniform m -> (forall a, uniform (k a)) -> uniform (bind m k).
Proof.
  intros Hm Hk c. unfold bind.
  rewrite (Hm c). destruct (m []) as [[a|e] ops]; cbn [fst snd]; [|reflexivity].
  rewrite (Hk a (c ++ ops)), (Hk a ops).
  destruct (k a []) as [r ops']. cbn [fst snd].
  now rewrite app_assoc.
Qed.

Lemma uniform_for_each {A} (xs : list A) (body : A -> builder unit) :
  (forall x, uniform (body x)) -> uniform (for_each xs body).
Proof.
  intros Hb. induction xs as [|x xs IH]; simpl.
  - apply uniform_ret.
  - apply uniform_bind; auto.
Qed.

Lemma uniform_repeat_n (n : nat) (body : builder unit) :
  uniform body -> uniform (repeat_n n body).
Proof.
  intros Hb. induction n as [|n IH]; simpl.
  - apply uniform_ret.
  - apply uniform_bind; auto.
Qed.

Ltac uniform_step :=
  first [ apply uniform_ret | apply uniform_raise | apply uniform_append
        | apply uniform_index | apply uniform_repeat_n
        | apply uniform_for_each | apply uniform_bind
        | match goal with
          | |- forall _ : (_ * _)%type, _ => intros [? ?]
          | |- forall _, _ => intro
          | |- uniform (if ?b then _ else _) => destruct b
          end ].
Ltac uniform_tac := repeat uniform_step.

(** What a uniform builder emits is read off its run on the empty circuit. *)
Lemma uniform_emits {A} (m : builder A) (a : A) (ops : list op) :
  uniform m -> m [] = (Ok a, ops) -> emits m a ops.
Proof. intros Hu H0 c. rewrite (Hu c), H0. reflexivity. Qed.

Lemma emits_repeat_n (n : nat) (body : builder unit) (ops : list op) :
  emits body tt ops -> emits (repeat_n n body) tt (concat (repeat ops n)).
Proof.
  intros Hb. induction n as [|n IH]; intros c; simpl.
  - unfold ret. now rewrite app_nil_r.
  - unfold bind. rewrite (Hb c), (IH (c ++ ops)). now rewrite app_assoc.
Qed.

Lemma grover_oracle_uniform (q0 q1 q2 q3 val u : qubit) :
  uniform (Grover.oracle_two_public_rooms [q0; q1; q2; q3; val; u]).
Proof.
  unfold Grover.oracle_two_public_rooms, Grover.flip_val_if_pattern,
    Grover.x_where_zero.
  uniform_tac.
Qed.

Lemma architect_v2_oracle_uniform (qubits : list qubit) :
  uniform (ArchitectV2.oracle_count_nonoverlapping_adjacency qubits).
Proof.
  unfold ArchitectV2.oracle_count_nonoverlapping_adjacency.
  destruct (firstn 5 qubits) as [|q0 [|q1 [|q2 [|q3 [|val [|x r]]]]]];
    try apply uniform_raise.
  destruct (firstn 4 (skipn 5 qubits)) as [|a [|b [|d [|e [|x r]]]]];
    try apply uniform_raise.
  unfold ArchitectV2.toggle_count, ArchitectV2.x_where_zero.
  uniform_tac.
Qed.

(** ** Construction errors *)

Lemma grover_oracle_rejects (qubits : list qubit) (c : circuit) :
  List.length qubits <> 6 ->
  Grover.oracle_two_public_rooms qubits c = (Raise ValueError, c).
Proof.
  intros Hlen.
  destruct qubits as [|q0 [|q1 [|q2 [|q3 [|val [|u [|x rest]]]]]]];
    try reflexivity.
  exfalso. apply Hlen. reflexivity.
Qed.

Lemma architect_v2_oracle_rejects (qubits : list qubit) (c : circuit) :
  List.length qubits < 9 ->
  ArchitectV2.oracle_count_nonoverlapping_adjacency qubits c = (Raise ValueError, c).
Proof.
  intros Hlen.
  destruct qubits as [|q0 [|q1 [|q2 [|q3 [|val [|a [|b [|d [|e rest]]]]]]]]];
    try reflexivity.
  simpl in Hlen. lia.
Qed.

Lemma architect_v2_oracle_accepts (qubits : list qubit) (c : circuit) :
  9 <= List.length qubits ->
  exists ops,
    ArchitectV2.oracle_count_nonoverlapping_adjacency qubits c = (Ok tt, c ++ ops).
Proof.
  intros Hlen.
  destruct qubits as [|q0 [|q1 [|q2 [|q3 [|val [|a [|b [|d [|e rest]]]]]]]]];
    try (simpl in Hlen; lia).
  eexists. apply uniform_emits; [apply architect_v2_oracle_uniform|].
  vm_compute. reflexivity.
Qed.

(** The cells after the ninth are never read. *)
Lemma architect_v2_oracle_reads_nine_cells (qubits : list qubit) (c : circuit) :
  9 <= List.length qubits ->
  ArchitectV2.oracle_count_nonoverlapping_adjacency qubits c =
  ArchitectV2.oracle_count_nonoverlapping_adjacency (firstn 9 qubits) c.
Proof.
  intros Hlen.
  destruct qubits as [|q0 [|q1 [|q2 [|q3 [|val [|a [|b [|d [|e rest]]]]]]]]];
    try (simpl in Hlen; lia).
  rewrite (architect_v2_oracle_uniform _ c).
  rewrite (architect_v2_oracle_uniform (firstn 9 _) c).
  vm_compute. reflexivity.
Qed.

(** Operations on distinct cells stay so when the cells are renamed
    one to one. *)
Lemma op_qubits_rename (f : qubit -> qubit) (o : op) :
  op_qubits (rename_op f o) = map f (op_qubits o).
Proof.
  destruct o as [g cs t|qs key]; simpl; [|reflexivity].
  now rewrite map_app.
Qed.

Lemma nodup_keeps_all (l : list nat) :
  List.length (nodup Nat.eq_dec l) = List.length l -> NoDup l.
Proof.
  induction l as [|x l IH]; intros Hlen; [constructor|].
  cbn [nodup] in Hlen. destruct (in_dec Nat.eq_dec x l) as [Hin|Hnin].
  - pose proof (NoDup_incl_length (NoDup_nodup Nat.eq_dec l)
                  (fun y Hy => proj1 (nodup_In Nat.eq_dec l y) Hy)) as Hle.
    cbn [List.length] in Hlen. lia.
  - constructor; [exact Hnin|]. apply IH. cbn [List.length] in Hlen. lia.
Qed.

Lemma distinct_below_renamed (qubits : list qubit) (o : op) :
  NoDup qubits ->
  distinct_below (List.length qubits) o = true ->
  acts_on_distinct_qubits (rename_op (fun i => nth i qubits 0) o).
Proof.
  intros Hnd Hd. unfold acts_on_distinct_qubits. rewrite op_qubits_rename.
  unfold distinct_below in Hd. apply andb_true_iff in Hd as [Hlt Hlen].
  rewrite forallb_forall in Hlt. apply Nat.eqb_eq in Hlen.
  apply NoDup_map_NoDup_ForallPairs; [|apply nodup_keeps_all, Hlen].
  intros x y Hx Hy Heq.
  apply (proj1 (NoDup_nth qubits 0) Hnd); [| |exact Heq].
  - apply Nat.ltb_lt, Hlt, Hx.
  - apply Nat.ltb_lt, Hlt, Hy.
Qed.

Lemma all_distinct_below_renamed (qubits : list qubit) (ops : list op) :
  NoDup qubits ->
  forallb (distinct_below (List.length qubits)) ops = true ->
  Forall acts_on_distinct_qubits (map (rename_op (fun i => nth i qubits 0)) ops).
Proof.
  intros Hnd Hall. rewrite forallb_forall in Hall.
  apply Forall_forall. intros o Ho. apply in_map_iff in Ho as (o' & <- & Ho').
  apply distinct_below_renamed; auto.
Qed.

Lemma emits_append (ops : list op) : emits (append ops) tt ops.
Proof. intros c. reflexivity. Qed.

Lemma emits_bind {A B} (m : builder A) (k : A -> builder B) a b ops1 ops2 :
  emits m a ops1 -> emits (k a) b ops2 -> emits (bind m k) b (ops1 ++ ops2).
Proof.
  intros Hm Hk c. unfold bind. rewrite (Hm c), (Hk (c ++ ops1)).
  now rewrite app_assoc.
Qed.

(** ** The shape of the circuits, for every iteration count *)

Lemma grover_iteration_emitted :
  emits (Grover.oracle_two_public_rooms (LineQubit_range 6) ;;
         Grover.diffusion (LineQubit_range 6)) tt grover_iteration.
Proof.
  apply uniform_emits.
  - apply uniform_bind; [apply grover_oracle_uniform|].
    intros _. unfold Grover.diffusion. uniform_tac.
  - vm_compute. reflexivity.
Qed.

Lemma grover_circuit_shape (k : Z) :
  Grover.build_grover_circuit k =
  Ok (H_on_each [0; 1; 2; 3]
      ++ concat (repeat grover_iteration (Z.to_nat k))
      ++ [measure [0; 1; 2; 3] "result"]).
Proof.
  assert (E : emits
            (append (H_on_each (firstn 4 (LineQubit_range 6))) ;;
             for_range k
               (Grover.oracle_two_public_rooms (LineQubit_range 6) ;;
                Grover.diffusion (LineQubit_range 6)) ;;
             append [measure (firstn 4 (LineQubit_range 6)) "result"])
            tt
            (H_on_each [0; 1; 2; 3]
             ++ concat (repeat grover_iteration (Z.to_nat k))
             ++ [measure [0; 1; 2; 3] "result"])).
  { eapply emits_bind; [apply emits_append|].
    eapply emits_bind; [|apply emits_append].
    apply emits_repeat_n, grover_iteration_emitted. }
  unfold Grover.build_grover_circuit, build. cbv zeta.
  rewrite (E []). reflexivity.
Qed.

Lemma architect_v2_circuit_total (k : Z) :
  exists iteration,
    ArchitectV2.build_grover_circuit k =
    Ok (H_on_each [0; 1; 2; 3]
        ++ concat (repeat iteration (Z.to_nat k))
        ++ [measure [0; 1; 2; 3] "result"]).
Proof.
  destruct (architect_v2_oracle_accepts (LineQubit_range 9) [])
    as [oracle_ops Hops]; [simpl; lia|].
  exists (oracle_ops ++ appended_block).
  assert (Hbody : emits
            (ArchitectV2.oracle_count_nonoverlapping_adjacency (LineQubit_range 9) ;;
             ArchitectV2.diffusion 0 1 2 3) tt (oracle_ops ++ appended_block)).
  { eapply emits_bind.
    - apply uniform_emits; [apply architect_v2_oracle_uniform | exact Hops].
    - apply uniform_emits; [unfold ArchitectV2.diffusion; uniform_tac | reflexivity]. }
  unfold ArchitectV2.build_grover_circuit, build. cbv zeta.
  change (firstn 4 (LineQubit_range 9)) with [0; 1; 2; 3].
  cbv iota.
  assert (E : emits
            (val <- index (LineQubit_range 9) 4 ;;
             append (H_on_each [0; 1; 2; 3]) ;;
             for_range k
               (ArchitectV2.oracle_count_nonoverlapping_adjacency (LineQubit_range 9) ;;
                ArchitectV2.diffusion 0 1 2 3) ;;
             append [measure [0; 1; 2; 3] "result"])
            tt
            ([] ++ H_on_each [0; 1; 2; 3]
             ++ concat (repeat (oracle_ops ++ appended_block) (Z.to_nat k))
             ++ [measure [0; 1; 2; 3] "result"])).
  { eapply emits_bind.
    - apply uniform_emits; [apply uniform_index | reflexivity].
    - eapply emits_bind; [apply emits_append|].
      eapply emits_bind; [|apply emits_append].
      apply emits_repeat_n, Hbody. }
  match goal with
  | |- match ?m with pair _ _ => _ end = _ =>
      replace m with (@Ok unit tt,
                      [] ++ [] ++ H_on_each [0; 1; 2; 3]
                         ++ concat (repeat (oracle_ops ++ appended_block) (Z.to_nat k))
                         ++ [measure [0; 1; 2; 3] "result"])
        by (symmetry; exact (E []))
  end.
  reflexivity.
Qed.

Lemma grover_oracle_accepts_distinct (qubits : list qubit) (c : circuit) :
  List.length qubits = 6 -> NoDup qubits ->
  exists ops,
    Grover.oracle_two_public_rooms qubits c = (Ok tt, c ++ ops) /\
    Forall acts_on_distinct_qubits ops.
Proof.
  intros Hlen Hnd.
  destruct qubits as [|q0 [|q1 [|q2 [|q3 [|val [|u [|x rest]]]]]]];
    try discriminate Hlen.
  set (qubits := [q0; q1; q2; q3; val; u]) in *.
  exists (map (rename_op (fun i => nth i qubits 0))
              (snd (Grover.oracle_two_public_rooms (LineQubit_range 6) []))).
  split.
  - apply uniform_emits; [apply grover_oracle_uniform|].
    vm_compute. reflexivity.
  - apply all_distinct_below_renamed; [exact Hnd|].
    vm_compute. reflexivity.
Qed.

Lemma architect_v2_oracle_accepts_distinct (qubits : list qubit) (c : circuit) :
  9 <= List.length qubits -> NoDup qubits ->
  exists ops,
    ArchitectV2.oracle_count_nonoverlapping_adjacency qubits c = (Ok tt, c ++ ops) /\
    ArchitectV2.oracle_count_nonoverlapping_adjacency (firstn 9 qubits) c
      = (Ok tt, c ++ ops) /\
    Forall acts_on_distinct_qubits ops.
Proof.
  intros Hlen Hnd.
  assert (Hnine : NoDup (firstn 9 qubits)).
  { rewrite <- (firstn_skipn 9 qubits) in Hnd. now apply NoDup_app_remove_r in Hnd. }
  rewrite (architect_v2_oracle_reads_nine_cells qubits c Hlen).
  destruct qubits as [|q0 [|q1 [|q2 [|q3 [|val [|a [|b [|d [|e rest]]]]]]]]];
    try (simpl in Hlen; lia).
  change (firstn 9 (q0 :: q1 :: q2 :: q3 :: val :: a :: b :: d :: e :: rest))
    with [q0; q1; q2; q3; val; a; b; d; e] in *.
  set (nine := [q0; q1; q2; q3; val; a; b; d; e]) in *.
  exists (map (rename_op (fun i => nth i nine 0))
              (snd (ArchitectV2.oracle_count_nonoverlapping_adjacency
                      (LineQubit_range 9) []))).
  assert (Hemit : ArchitectV2.oracle_count_nonoverlapping_adjacency nine c =
                  (Ok tt, c ++ map (rename_op (fun i => nth i nine 0))
                                   (snd (ArchitectV2.oracle_count_nonoverlapping_adjacency
                                           (LineQubit_range 9) [])))).
  { apply uniform_emits; [apply architect_v2_oracle_uniform|].
    vm_compute. reflexivity. }
  split; [exact Hemit|]. split; [exact Hemit|].
  apply all_distinct_below_renamed; [exact Hnine|].
  vm_compute. reflexivity.
Qed.

(** C7 as stated fails for quantum_architect_v2.py: its predicate declares
    nine cells (arity 4, the marker, 4 ancillas), and the oracle accepts a
    register of twelve. *)
Lemma longer_register_is_accepted :
  ~ ConstructionSpec.rejects_mismatch (ConstructionSpec.declared_cells 4 4)
      ArchitectV2.oracle_count_nonoverlapping_adjacency (LineQubit_range 12).
Proof.
  intros Hclaim. destruct Hclaim as (e & c & Heq).
  - vm_compute. discriminate.
  - vm_compute in Heq. discriminate Heq.
Qed.

(** C7, amended: an oracle handed a register too short for its cells
    raises a ValueError at its first statements, with nothing appended to
    the circuit, so that nothing is built that could be sampled: grover.py
    needs its six cells, quantum_architect_v2.py the four data cells, val
    and the four ancillas.  grover.py rejects a longer register as well;
    quantum_architect_v2.py accepts one and reads its first nine cells
    only.  On a register of distinct cells that it accepts, an oracle
    succeeds, only appends, and appends operations on distinct qubits only
    (which cirq builds without complaint).  [build_grover_circuit] takes
    the iteration count alone, fixes its register, and returns a circuit
    for every count. *)
Theorem construction_errors_come_from_unpacking :
  (forall qubits c, List.length qubits <> 6 ->
     Grover.oracle_two_public_rooms qubits c = (Raise ValueError, c)) /\
  (forall qubits c, List.length qubits < 9 ->
     ArchitectV2.oracle_count_nonoverlapping_adjacency qubits c =
     (Raise ValueError, c)) /\
  (forall qubits c, List.length qubits = 6 -> NoDup qubits ->
     exists ops,
       Grover.oracle_two_public_rooms qubits c = (Ok tt, c ++ ops) /\
       Forall acts_on_distinct_qubits ops) /\
  (forall qubits c, 9 <= List.length qubits -> NoDup qubits ->
     exists ops,
       ArchitectV2.oracle_count_nonoverlapping_adjacency qubits c =
       (Ok tt, c ++ ops) /\
       ArchitectV2.oracle_count_nonoverlapping_adjacency (firstn 9 qubits) c =
       (Ok tt, c ++ ops) /\
       Forall acts_on_distinct_qubits ops) /\
  (forall k, exists c, Grover.build_grover_circuit k = Ok c) /\
  (forall k, exists c, ArchitectV2.build_grover_circuit k = Ok c).
Proof.
  split; [exact grover_oracle_rejects|].
  split; [exact architect_v2_oracle_rejects|].
  split; [exact grover_oracle_accepts_distinct|].
  split; [exact architect_v2_oracle_accepts_distinct|].
  split; intros k.
  - eexists. apply grover_circuit_shape.
  - destruct (architect_v2_circuit_total k) as [it Hit]. eexists. exact Hit.
Qed.

Lemma construction_errors_come_from_unpacking_witness :
  Grover.oracle_two_public_rooms (LineQubit_range 5) [] = (Raise ValueError, []) /\
  Grover.oracle_two_public_rooms (LineQubit_range 7) [] = (Raise ValueError, []) /\
  ArchitectV2.oracle_count_nonoverlapping_adjacency (LineQubit_range 8) [] =
    (Raise ValueError, []) /\
  (exists ops,
     Grover.oracle_two_public_rooms (LineQubit_range 6) [] = (Ok tt, [] ++ ops) /\
     Forall acts_on_distinct_qubits ops) /\
  (exists ops,
     ArchitectV2.oracle_count_nonoverlapping_adjacency (LineQubit_range 12) [] =
     (Ok tt, [] ++ ops) /\
     ArchitectV2.oracle_count_nonoverlapping_adjacency
       (firstn 9 (LineQubit_range 12)) [] = (Ok tt, [] ++ ops) /\
     Forall acts_on_distinct_qubits ops).
Proof.
  destruct construction_errors_come_from_unpacking as (H1 & H2 & H3 & H4 & _).
  split; [apply H1; simpl; lia|].
  split; [apply H1; simpl; lia|].
  split; [apply H2; simpl; lia|].
  split.
  - apply H3; [reflexivity | apply seq_NoDup].
  - apply H4; [simpl; lia | apply seq_NoDup].
Defined.

(** ** Qubits a circuit never touches *)

Lemma amp_at_tabulate (n : nat) (f : N -> Amp.t) (i : N) :
  amp_at (tabulate n f) i = if (i <? 2 ^ N.of_nat n)%N then f i else Amp.zero.
Proof.
  revert f i. induction n as [|n IH]; intros f i.
  - cbn [tabulate amp_at]. change (2 ^ N.of_nat 0)%N with 1%N.
    destruct (N.eqb_spec i 0) as [->|Hi]; [reflexivity|].
    destruct (N.ltb_spec i 1); [lia | reflexivity].
  - cbn [tabulate amp_at].
    rewrite Nat2N.inj_succ, N.pow_succ_r'.
    pose proof (N.div2_odd i) as Hi.
    destruct (N.odd i); rewrite IH; cbn [N.b2n] in Hi.
    + destruct (N.ltb_spec (N.div2 i) (2 ^ N.of_nat n)),
               (N.ltb_spec i (2 * 2 ^ N.of_nat n)); try lia;
        [now rewrite <- Hi | reflexivity].
    + rewrite N.add_0_r in Hi.
      destruct (N.ltb_spec (N.div2 i) (2 ^ N.of_nat n)),
               (N.ltb_spec i (2 * 2 ^ N.of_nat n)); try lia;
        [now rewrite <- Hi | reflexivity].
Qed.

Lemma bitpos_inj (n : nat) (q t : qubit) :
  q < n -> t < n -> t <> q -> bitpos n t <> bitpos n q.
Proof. unfold bitpos. lia. Qed.

Lemma qbit_flip_other (n : nat) (q t : qubit) (i : N) :
  bitpos n t <> bitpos n q -> qbit n q (flip n t i) = qbit n q i.
Proof.
  intros Hne. unfold qbit, flip.
  rewrite N.lxor_spec, N.shiftl_1_l, N.pow2_bits_false by exact Hne.
  apply xorb_false_r.
Qed.

Lemma avoids_target n q g cs t :
  avoids n q (Gate g cs t) = true -> t < n /\ t <> q.
Proof.
  unfold avoids; simpl. rewrite forallb_app; simpl.
  rewrite !andb_true_iff, negb_true_iff, Nat.ltb_lt, Nat.eqb_neq. tauto.
Qed.

Lemma avoids_not_mentioned n q o :
  avoids n q o = true -> ~ In q (op_qubits o).
Proof.
  unfold avoids. rewrite forallb_forall. intros Hall Hin.
  specialize (Hall q Hin).
  rewrite andb_true_iff, negb_true_iff, Nat.eqb_neq in Hall. tauto.
Qed.

Lemma apply_op_vanishes n q b o st :
  q < n -> avoids n q o = true ->
  vanishes_where n q b st -> vanishes_where n q b (apply_op n o st).
Proof.
  intros Hq Hav Hst. destruct o as [g cs t|qs key]; [|exact Hst].
  destruct (avoids_target _ _ _ _ _ Hav) as [Ht Hne].
  pose proof (bitpos_inj Hq Ht Hne) as Hpos.
  intros i Hi. simpl. rewrite amp_at_tabulate.
  destruct (i <? 2 ^ N.of_nat n)%N; [|reflexivity].
  destruct (forallb (fun c => qbit n c i) cs); [|apply Hst, Hi].
  assert (Hf : amp_at st (flip n t i) = Amp.zero).
  { apply Hst. now rewrite qbit_flip_other. }
  unfold gate_amp. destruct g.
  - exact Hf.
  - rewrite Hf, (Hst i Hi). destruct (qbit n t i); reflexivity.
  - rewrite (Hst i Hi). destruct (qbit n t i); reflexivity.
Qed.

Lemma run_vanishes n q b c st :
  q < n -> forallb (avoids n q) c = true ->
  vanishes_where n q b st -> vanishes_where n q b (run n c st).
Proof.
  intros Hq. revert st. induction c as [|o c IH]; intros st Hc Hst; simpl.
  - exact Hst.
  - simpl in Hc. apply andb_true_iff in Hc as [Ho Hc].
    apply IH; [exact Hc|]. now apply apply_op_vanishes.
Qed.

Lemma basis_zero_vanishes n q : vanishes_where n q true (basis n 0).
Proof.
  intros i Hi. unfold basis. rewrite amp_at_tabulate.
  destruct (i <? 2 ^ N.of_nat n)%N; [|reflexivity].
  destruct (N.eqb_spec i 0) as [->|]; [|reflexivity].
  unfold qbit in Hi. rewrite N.bits_0 in Hi. discriminate.
Qed.

Lemma forallb_concat_repeat {A} (p : A -> bool) (l : list A) (k : nat) :
  forallb p l = true -> forallb p (concat (repeat l k)) = true.
Proof.
  intros Hl. induction k as [|k IH]; simpl; [reflexivity|].
  now rewrite forallb_app, Hl, IH.
Qed.

Lemma forallb_firstn {A} (p : A -> bool) (l : list A) (m : nat) :
  forallb p l = true -> forallb p (firstn m l) = true.
Proof.
  rewrite !forallb_forall. intros Hl x Hx.
  apply Hl. rewrite <- (firstn_skipn m l). apply in_or_app. now left.
Qed.

Lemma grover_circuit_avoids_unused (k : nat) :
  forallb (avoids 6 5)
    (H_on_each [0; 1; 2; 3]
     ++ concat (repeat grover_iteration k)
     ++ [measure [0; 1; 2; 3] "result"]) = true.
Proof.
  rewrite !forallb_app.
  apply andb_true_iff; split; [reflexivity|].
  apply andb_true_iff; split; [|reflexivity].
  apply forallb_concat_repeat. reflexivity.
Qed.


(** ** Acting as the identity on the last qubit *)

Lemma tabulate_ext (n : nat) (f g : N -> Amp.t) :
  (forall j, (j < 2 ^ N.of_nat n)%N -> f j = g j) -> tabulate n f = tabulate n g.
Proof.
  revert f g. induction n as [|n IH]; intros f g Hfg; cbn [tabulate].
  - f_equal. apply Hfg. change (2 ^ N.of_nat 0)%N with 1%N. lia.
  - rewrite Nat2N.inj_succ, N.pow_succ_r' in Hfg.
    f_equal; apply IH; intros j Hj; apply Hfg; lia.
Qed.

Lemma bitpos_succ (n : nat) (q : qubit) :
  q < n -> bitpos (S n) q = N.succ (bitpos n q).
Proof. intros Hq. unfold bitpos. lia. Qed.

Lemma qbit_sector (n : nat) (q : qubit) (j : N) (b : bool) :
  q < n -> qbit (S n) q (2 * j + N.b2n b)%N = qbit n q j.
Proof.
  intros Hq. unfold qbit. rewrite bitpos_succ by exact Hq.
  apply N.testbit_succ_r.
Qed.

Lemma flip_sector (n : nat) (t : qubit) (j : N) (b : bool) :
  t < n -> flip (S n) t (2 * j + N.b2n b)%N = (2 * flip n t j + N.b2n b)%N.
Proof.
  intros Ht. unfold flip. rewrite bitpos_succ by exact Ht.
  rewrite !N.shiftl_1_l. apply N.bits_inj. intros m.
  rewrite N.lxor_spec.
  destruct (N.zero_or_succ m) as [->|[m' ->]].
  - rewrite !N.testbit_0_r.
    rewrite N.pow2_bits_false by (apply N.neq_succ_0).
    apply xorb_false_r.
  - rewrite !N.testbit_succ_r, N.lxor_spec.
    rewrite !N.pow2_bits_eqb.
    f_equal.
    destruct (N.eqb_spec (bitpos n t) m'), (N.eqb_spec (N.succ (bitpos n t)) (N.succ m'));
      lia.
Qed.

Lemma flip_bound (n : nat) (t : qubit) (j : N) :
  t < n -> (j < 2 ^ N.of_nat n)%N -> (flip n t j < 2 ^ N.of_nat n)%N.
Proof.
  intros Ht Hj. unfold flip. rewrite N.shiftl_1_l.
  set (p := bitpos n t).
  assert (Hp : (p < N.of_nat n)%N) by (unfold p, bitpos; lia).
  destruct (N.eq_dec (N.lxor j (2 ^ p)) 0) as [->|Hnz].
  - apply N.neq_0_lt_0, N.pow_nonzero. discriminate.
  - apply N.log2_lt_pow2; [lia|].
    eapply N.le_lt_trans; [apply N.log2_lxor|].
    rewrite N.log2_pow2 by lia.
    apply N.max_lub_lt; [|exact Hp].
    destruct (N.eq_dec j 0) as [->|Hj0]; [simpl; lia|].
    apply N.log2_lt_pow2; lia.
Qed.

Lemma amp_at_sector (n : nat) (b : bool) (st : state) (j : N) :
  (j < 2 ^ N.of_nat n)%N ->
  amp_at (sector n b st) j = amp_at st (2 * j + N.b2n b)%N.
Proof.
  intros Hj. unfold sector. rewrite amp_at_tabulate.
  apply N.ltb_lt in Hj. now rewrite Hj.
Qed.

Lemma avoids_last (n : nat) (o : op) (x : qubit) :
  avoids (S n) n o = true -> In x (op_qubits o) -> x < n.
Proof.
  unfold avoids. rewrite forallb_forall. intros Hall Hin.
  specialize (Hall x Hin).
  rewrite andb_true_iff, negb_true_iff, Nat.ltb_lt, Nat.eqb_neq in Hall. lia.
Qed.

Lemma apply_op_sector (n : nat) (b : bool) (o : op) (st : state) :
  avoids (S n) n o = true ->
  sector n b (apply_op (S n) o st) = apply_op n o (sector n b st).
Proof.
  intros Hav. destruct o as [g cs t|qs key]; [|reflexivity].
  assert (Ht : t < n)
    by (eapply avoids_last; [exact Hav|]; simpl; apply in_or_app; right; now left).
  assert (Hcs : forall c, In c cs -> c < n)
    by (intros c Hc; eapply avoids_last; [exact Hav|]; simpl; apply in_or_app; now left).
  unfold sector at 1. cbn [apply_op]. apply tabulate_ext. intros j Hj.
  rewrite amp_at_tabulate.
  replace (2 * j + N.b2n b <? 2 ^ N.of_nat (S n))%N with true
    by (symmetry; apply N.ltb_lt; rewrite Nat2N.inj_succ, N.pow_succ_r';
        destruct b; simpl N.b2n; lia).
  replace (forallb (fun c => qbit (S n) c (2 * j + N.b2n b)%N) cs)
    with (forallb (fun c => qbit n c j) cs).
  2:{ clear -Hcs. induction cs as [|c cs IH]; [reflexivity|]. cbn [forallb].
      rewrite qbit_sector by (apply Hcs; now left).
      f_equal. apply IH. intros c' Hc'. apply Hcs. now right. }
  destruct (forallb (fun c => qbit n c j) cs);
    [|rewrite amp_at_sector by exact Hj; reflexivity].
  unfold gate_amp.
  destruct g; rewrite ?qbit_sector, ?flip_sector by exact Ht;
    rewrite ?amp_at_sector by (try apply flip_bound; assumption);
    reflexivity.
Qed.

Lemma run_sector (n : nat) (b : bool) (c : circuit) (st : state) :
  forallb (avoids (S n) n) c = true ->
  sector n b (run (S n) c st) = run n c (sector n b st).
Proof.
  revert st. induction c as [|o c IH]; intros st Hc; simpl; [reflexivity|].
  simpl in Hc. apply andb_true_iff in Hc as [Ho Hc].
  rewrite IH by exact Hc. now rewrite apply_op_sector.
Qed.

(** C10: for every iteration count, no operation of the circuit of
    grover.py has the sixth qubit (index 5) among its controls, its target
    or its measured qubits; on any state of the six qubits every prefix of
    the circuit acts on the half where that qubit is 0 and on the half
    where it is 1 as one and the same circuit on the other five qubits,
    that is, as the identity on the sixth; and run from the all-zero state
    every amplitude with that qubit at 1 stays zero after every prefix. *)
Theorem unused_qubit_is_untouched :
  forall k : Z,
  exists c,
    Grover.build_grover_circuit k = Ok c /\
    (forall o, In o c -> ~ In 5 (op_qubits o)) /\
    (forall m b st,
       sector 5 b (run 6 (firstn m c) st) = run 5 (firstn m c) (sector 5 b st)) /\
    (forall m, vanishes_where 6 5 true (run 6 (firstn m c) (basis 6 0))).
Proof.
  intros k. eexists. split; [apply grover_circuit_shape|].
  pose proof (grover_circuit_avoids_unused (Z.to_nat k)) as Hav.
  split; [|split].
  - intros o Ho. apply (@avoids_not_mentioned 6).
    rewrite forallb_forall in Hav. now apply Hav.
  - intros m b st. apply run_sector. now apply forallb_firstn.
  - intros m. apply run_vanishes; [lia | now apply forallb_firstn |].
    apply basis_zero_vanishes.
Qed.

Lemma unused_qubit_is_untouched_witness :
  exists c,
    Grover.build_grover_circuit 1 = Ok c /\
    ~ In 5 (op_qubits (H 0)) /\
    amp_at (run 6 c (basis 6 0)) 1 = Amp.zero.
Proof.
  destruct (unused_qubit_is_untouched 1) as (c & Hc & Hq & _ & Hv).
  exists c. split; [exact Hc|].
  pose proof Hc as Hshape. rewrite grover_circuit_shape in Hshape.
  injection Hshape as Hshape.
  split.
  - apply Hq. rewrite <- Hshape. left. reflexivity.
  - specialize (Hv (List.length c) 1%N). rewrite firstn_all in Hv.
    apply Hv. reflexivity.
Defined.

(** ** The duplicated fitness function *)

#[global] Instance PyNumComm_Q : PyNumComm Q.
Proof.
  constructor. intros x y. cbn [py_mul PyNum_Q]. apply Qred_complete, Qmult_comm.
Qed.

Lemma calculate_fitness_same_function (A : Type) (HA : PyNum A) :
  @GroverSimple.calculate_fitness A HA = @TrussPopulation.calculate_fitness A HA.
Proof. reflexivity. Qed.

(** C9: the two copies of [calculate_fitness] return the same result on
    every design and target stress, and on a design triple that result is
    |max_stress - target_stress| + total_length / 100 + 10 * num_nodes,
    for any numbers whose product commutes (Python's ints and floats). *)
Theorem calculate_fitness_copies_agree :
  forall (A : Type) (HA : PyNum A) (HC : PyNumComm A),
    (forall (design : list A) (target_stress : A),
       GroverSimple.calculate_fitness design target_stress =
       TrussPopulation.calculate_fitness design target_stress) /\
    (forall num_nodes total_length max_stress target_stress : A,
       let value :=
         py_add (py_add (py_abs (py_sub max_stress target_stress))
                        (py_truediv total_length (py_int 100)))
                (py_mul (py_int 10) num_nodes) in
       GroverSimple.calculate_fitness [num_nodes; total_length; max_stress] target_stress
         = Ok value /\
       TrussPopulation.calculate_fitness [num_nodes; total_length; max_stress] target_stress
         = Ok value).
Proof.
  intros A HA HC. split.
  - intros design target_stress. reflexivity.
  - intros nn tl ms ts. cbv zeta. simpl.
    rewrite (py_mul_comm (py_int 10) nn). split; reflexivity.
Qed.

(** Design 1 of the scripts, [4, 120, 250], at the default target 200:
    50 + 1.2 + 40. *)
Lemma calculate_fitness_copies_agree_witness :
  GroverSimple.calculate_fitness [4 # 1; 120 # 1; 250 # 1]%Q (200 # 1)%Q = Ok (456 # 5)%Q /\
  TrussPopulation.calculate_fitness [4 # 1; 120 # 1; 250 # 1]%Q (200 # 1)%Q = Ok (456 # 5)%Q.
Proof.
  exact (proj2 (calculate_fitness_copies_agree PyNumComm_Q)
           (4 # 1)%Q (120 # 1)%Q (250 # 1)%Q (200 # 1)%Q).
Defined.

(** ** A missing image library *)

Section MissingPIL.
Import DrawingUtils DrawingSpec.

Lemma save_drawing_as_png_without_PIL image (E : env image) filename w :
  pil_installed E = false ->
  save_drawing_as_png E filename w = (Ok tt, with_console w png_notice).
Proof.
  intros Hpil.
  unfold save_drawing_as_png, try_except_ImportError, io_bind, import_PIL.
  rewrite Hpil. unfold io_lift, print, with_console, png_notice. simpl.
  now rewrite <- app_assoc.
Qed.

Lemma capture_frame_without_PIL image (E : env image) w :
  pil_installed E = false ->
  capture_frame E w =
  if is_recording w then (Ok tt, with_console w gif_notice) else (Ok tt, w).
Proof.
  intros Hpil. unfold capture_frame.
  destruct (is_recording w); simpl; [|reflexivity].
  unfold try_except_ImportError, io_bind, import_PIL.
  rewrite Hpil. unfold io_lift, print, with_console, gif_notice. simpl.
  now rewrite <- app_assoc.
Qed.

End MissingPIL.

(** C8 as stated fails for [capture_frame]: on a freshly constructed
    drawer, which is not recording, the method returns before the import
    and prints no notice at all. *)
Lemma capture_frame_idle_prints_nothing :
  ~ DrawingSpec.degrades_with_notice
      (DrawingUtils.capture_frame DrawingUtils.env_without_PIL)
      (DrawingUtils.init_world unit).
Proof.
  intros (notice & Hne & Heq). vm_compute in Heq.
  injection Heq as Heq. apply Hne. now rewrite <- Heq.
Qed.

(** C8, amended: without PIL, [save_drawing_as_png] catches the
    ImportError, prints its two-line notice and returns normally;
    [capture_frame] does the same while recording is on, and while it is
    off returns at once, printing nothing; neither raises. *)
Theorem missing_PIL_degrades_to_notice :
  forall (image : Type) (E : DrawingUtils.env image) (filename : string)
         (w : DrawingUtils.world image),
    DrawingUtils.pil_installed E = false ->
    DrawingUtils.save_drawing_as_png E filename w =
      (Ok tt, DrawingSpec.with_console w DrawingSpec.png_notice) /\
    (DrawingUtils.is_recording w = true ->
     DrawingUtils.capture_frame E w =
       (Ok tt, DrawingSpec.with_console w DrawingSpec.gif_notice)) /\
    (DrawingUtils.is_recording w = false ->
     DrawingUtils.capture_frame E w = (Ok tt, w)).
Proof.
  intros image E filename w Hpil.
  split; [now apply save_drawing_as_png_without_PIL|].
  rewrite (capture_frame_without_PIL _ _ Hpil).
  split; intros ->; reflexivity.
Qed.

Lemma missing_PIL_degrades_to_notice_witness :
  DrawingUtils.save_drawing_as_png DrawingUtils.env_without_PIL
    "quantum_turtle_art.png" (DrawingUtils.init_world unit) =
    (Ok tt, DrawingSpec.with_console (DrawingUtils.init_world unit)
              DrawingSpec.png_notice) /\
  DrawingUtils.capture_frame DrawingUtils.env_without_PIL DrawingSpec.recording_world =
    (Ok tt, DrawingSpec.with_console DrawingSpec.recording_world DrawingSpec.gif_notice) /\
  DrawingUtils.capture_frame DrawingUtils.env_without_PIL (DrawingUtils.init_world unit) =
    (Ok tt, DrawingUtils.init_world unit).
Proof.
  pose proof (@missing_PIL_degrades_to_notice unit DrawingUtils.env_without_PIL
                "quantum_turtle_art.png" (DrawingUtils.init_world unit) eq_refl)
    as (Hsave & _ & Hidle).
  pose proof (@missing_PIL_degrades_to_notice unit DrawingUtils.env_without_PIL
                "quantum_turtle_art.png" DrawingSpec.recording_world eq_refl)
    as (_ & Hrec & _).
  split; [exact Hsave|].
  split; [apply Hrec; reflexivity | apply Hidle; reflexivity].
Defined.

(* ===================================================================== *)
(** * Further properties *)
(* ===================================================================== *)

(** ** Circuits of controlled NOTs as permutations of the basis states *)

Lemma flip_involutive (n : nat) (t : qubit) (i : N) : flip n t (flip n t i) = i.
Proof.
  unfold flip. rewrite N.lxor_assoc, N.lxor_nilpotent. apply N.lxor_0_r.
Qed.

Lemma controls_flip (n : nat) (cs : list qubit) (t : qubit) (i : N) :
  t < n -> forallb (fun c => (c <? n) && negb (c =? t)) cs = true ->
  forallb (fun c => qbit n c (flip n t i)) cs = forallb (fun c => qbit n c i) cs.
Proof.
  intros Ht Hcs. induction cs as [|c cs IH]; [reflexivity|].
  cbn [forallb] in *. apply andb_true_iff in Hcs as [Hc Hcs].
  apply andb_true_iff in Hc as [Hlt Hne].
  apply Nat.ltb_lt in Hlt. apply negb_true_iff, Nat.eqb_neq in Hne.
  rewrite qbit_flip_other by (apply bitpos_inj; lia).
  now rewrite IH.
Qed.

Lemma amp_at_basis (n : nat) (i j : N) :
  (j < 2 ^ N.of_nat n)%N ->
  amp_at (basis n i) j = if N.eqb j i then Amp.one else Amp.zero.
Proof.
  intros Hj. unfold basis. rewrite amp_at_tabulate.
  apply N.ltb_lt in Hj. now rewrite Hj.
Qed.

Lemma apply_op_basis (n : nat) (o : op) (i : N) :
  x_only n o = true ->
  apply_op n o (basis n i) = basis n (classical_step n o i).
Proof.
  intros Hx. destruct o as [g cs t|qs key]; [|reflexivity].
  destruct g; try discriminate Hx.
  cbn [x_only] in Hx. apply andb_true_iff in Hx as [Ht Hcs].
  apply Nat.ltb_lt in Ht.
  cbn [apply_op classical_step gate_amp]. unfold basis at 3.
  apply tabulate_ext. intros k Hk.
  pose proof (controls_flip cs k Ht Hcs) as Hck.
  pose proof (controls_flip cs i Ht Hcs) as Hci.
  destruct (forallb (fun c => qbit n c k) cs) eqn:Ek.
  - rewrite amp_at_basis by (now apply flip_bound).
    destruct (N.eqb_spec (flip n t k) i) as [Heq|Hne].
    + rewrite <- Heq in Hci |- *. rewrite flip_involutive in Hci |- *.
      rewrite Hck, N.eqb_refl. reflexivity.
    + destruct (forallb (fun c => qbit n c i) cs) eqn:Ei.
      * destruct (N.eqb_spec k (flip n t i)) as [Hk'|]; [|reflexivity].
        exfalso. apply Hne. rewrite Hk'. apply flip_involutive.
      * destruct (N.eqb_spec k i) as [Hk'|]; [|reflexivity].
        rewrite Hk' in Ek. congruence.
  - rewrite amp_at_basis by exact Hk.
    destruct (forallb (fun c => qbit n c i) cs) eqn:Ei; [|reflexivity].
    destruct (N.eqb_spec k i) as [Hk'|Hne].
    + rewrite Hk' in Ek. congruence.
    + destruct (N.eqb_spec k (flip n t i)) as [Hk'|]; [|reflexivity].
      rewrite Hk', Hci in Ek. congruence.
Qed.

(** On a basis state, a circuit of controlled NOTs computes a basis
    state: the one its bits are permuted to. *)
Lemma run_basis_classical (n : nat) (c : circuit) (i : N) :
  forallb (x_only n) c = true ->
  run n c (basis n i) = basis n (classical_run n c i).
Proof.
  revert i. induction c as [|o c IH]; intros i Hc; [reflexivity|].
  cbn [forallb] in Hc. apply andb_true_iff in Hc as [Ho Hc].
  cbn [run classical_run fold_left].
  rewrite apply_op_basis by exact Ho. now apply IH.
Qed.

Lemma run_app (n : nat) (c1 c2 : circuit) (st : state) :
  run n (c1 ++ c2) st = run n c2 (run n c1 st).
Proof. unfold run. apply fold_left_app. Qed.

Lemma classical_step_bound (n : nat) (o : op) (i : N) :
  x_only n o = true -> (i < 2 ^ N.of_nat n)%N ->
  (classical_step n o i < 2 ^ N.of_nat n)%N.
Proof.
  intros Hx Hi. destruct o as [g cs t|qs key]; [|exact Hi].
  destruct g; try discriminate Hx.
  cbn [x_only] in Hx. apply andb_true_iff in Hx as [Ht _].
  apply Nat.ltb_lt in Ht. cbn [classical_step].
  destruct (forallb (fun c => qbit n c i) cs); [now apply flip_bound | exact Hi].
Qed.

Lemma classical_run_bound (n : nat) (c : circuit) (i : N) :
  forallb (x_only n) c = true -> (i < 2 ^ N.of_nat n)%N ->
  (classical_run n c i < 2 ^ N.of_nat n)%N.
Proof.
  revert i. induction c as [|o c IH]; intros i Hc Hi; [exact Hi|].
  cbn [forallb] in Hc. apply andb_true_iff in Hc as [Ho Hc].
  cbn [classical_run fold_left]. apply IH; [exact Hc|].
  now apply classical_step_bound.
Qed.

(** A (controlled) X moves amplitudes: the new amplitude at [i] is the
    old one at the index [i] is sent to. *)
Lemma apply_op_x_amp (n : nat) (o : op) (st : state) (i : N) :
  x_only n o = true -> (i < 2 ^ N.of_nat n)%N ->
  amp_at (apply_op n o st) i = amp_at st (classical_step n o i).
Proof.
  intros Hx Hi. destruct o as [g cs t|qs key]; [|reflexivity].
  destruct g; try discriminate Hx.
  cbn [apply_op classical_step gate_amp]. rewrite amp_at_tabulate.
  apply N.ltb_lt in Hi. rewrite Hi.
  destruct (forallb (fun c => qbit n c i) cs); reflexivity.
Qed.

Lemma run_x_amp (n : nat) (c : circuit) (st : state) (i : N) :
  forallb (x_only n) c = true -> (i < 2 ^ N.of_nat n)%N ->
  amp_at (run n c st) i = amp_at st (classical_run n (rev c) i).
Proof.
  revert i. induction c as [|o c IH] using rev_ind; intros i Hc Hi; [reflexivity|].
  rewrite forallb_app in Hc. apply andb_true_iff in Hc as [Hc Ho].
  cbn [forallb] in Ho. rewrite andb_true_r in Ho.
  rewrite run_app. cbn [run fold_left].
  rewrite apply_op_x_amp by assumption.
  rewrite rev_app_distr. cbn [rev app classical_run fold_left].
  apply IH; [exact Hc|]. now apply classical_step_bound.
Qed.

Lemma apply_gate_out_of_range (n : nat) g cs t (st : state) (i : N) :
  (2 ^ N.of_nat n <= i)%N -> amp_at (apply_op n (Gate g cs t) st) i = Amp.zero.
Proof.
  intros Hi. cbn [apply_op]. rewrite amp_at_tabulate.
  apply N.ltb_ge in Hi. now rewrite Hi.
Qed.

Lemma in_indices (n : nat) (i : N) :
  (i < 2 ^ N.of_nat n)%N -> In i (indices n).
Proof.
  intros Hi. unfold indices. rewrite <- (N2Nat.id i).
  apply in_map, in_seq. unfold dim.
  assert (N.of_nat (2 ^ n) = (2 ^ N.of_nat n)%N) by now rewrite Nat2N.inj_pow.
  lia.
Qed.

Lemma run_repeat_invariant (n : nat) (P : state -> Prop) (block : circuit) (k : nat)
    (st : state) :
  (forall s, P s -> P (run n block s)) -> P st ->
  P (run n (concat (repeat block k)) st).
Proof.
  intros Hblock. revert st. induction k as [|k IH]; intros st Hst; [exact Hst|].
  cbn [repeat concat]. rewrite run_app. apply IH, Hblock, Hst.
Qed.

(** An X-only circuit acts on any state by moving amplitudes along the
    map [f] of basis indices, once [f] is checked against the circuit on
    every index of the register. *)
Lemma x_circuit_acts_as (n : nat) (c : circuit) (f : N -> N) (st : state) (i : N) :
  forallb (x_only n) c = true ->
  forallb (fun j => N.eqb (classical_run n (rev c) j) (f j)) (indices n) = true ->
  (i < 2 ^ N.of_nat n)%N ->
  amp_at (run n c st) i = amp_at st (f i).
Proof.
  intros Hc Hf Hi. rewrite run_x_amp by assumption.
  rewrite forallb_forall in Hf.
  specialize (Hf i (in_indices n Hi)). apply N.eqb_eq in Hf. now rewrite Hf.
Qed.

Ltac by_amplitude_moves index_map :=
  apply x_circuit_acts_as with (f := index_map);
  [vm_compute; reflexivity | vm_compute; reflexivity | assumption].

(** ** The oracles on arbitrary states *)

(** X1: grover.py, on any state of the six qubits, superpositions included:
    the oracle exchanges the val = 0 and val = 1 amplitudes of the data
    values with exactly two 1s and leaves every other amplitude where it
    is; a second call puts every amplitude back. *)
Theorem oracle_two_public_rooms_on_any_state :
  forall (st : state) (i : N),
    (i < 2 ^ N.of_nat 6)%N ->
    exists c,
      build (Grover.oracle_two_public_rooms (LineQubit_range 6)) = Ok c /\
      amp_at (run 6 c st) i =
        amp_at st (if exactly_two_at 6 i then flip 6 4 i else i) /\
      amp_at (run 6 (c ++ c) st) i = amp_at st i.
Proof.
  intros st i Hi. eexists. split; [vm_compute; reflexivity|].
  split.
  - by_amplitude_moves (fun j => if exactly_two_at 6 j then flip 6 4 j else j).
  - by_amplitude_moves (fun j : N => j).
Qed.

Lemma oracle_two_public_rooms_on_any_state_witness :
  exists c,
    build (Grover.oracle_two_public_rooms (LineQubit_range 6)) = Ok c /\
    amp_at (run 6 c (ket [true; false; true; false; false; false])) 42 = Amp.one.
Proof.
  destruct (@oracle_two_public_rooms_on_any_state
              (ket [true; false; true; false; false; false]) 42%N
              ltac:(vm_compute; reflexivity)) as (c & Hc & Hamp & _).
  exists c. split; [exact Hc|]. rewrite Hamp. reflexivity.
Defined.

(** X2: [flip_val_if_pattern], for any pattern of four bits and any state:
    only the data value equal to the pattern has its val = 0 and val = 1
    amplitudes exchanged. *)
Theorem flip_val_if_pattern_on_any_state :
  forall (p0 p1 p2 p3 : bool) (st : state) (i : N),
    (i < 2 ^ N.of_nat 6)%N ->
    exists c,
      build (Grover.flip_val_if_pattern (LineQubit_range 6) 0 1 2 3 4
               [Nat.b2n p0; Nat.b2n p1; Nat.b2n p2; Nat.b2n p3]) = Ok c /\
      amp_at (run 6 c st) i =
        amp_at st (if matches_pattern 6 p0 p1 p2 p3 i then flip 6 4 i else i).
Proof.
  intros p0 p1 p2 p3 st i Hi.
  destruct p0, p1, p2, p3;
    (eexists; split;
     [vm_compute; reflexivity
     |match goal with
      | |- context [matches_pattern 6 ?a ?b ?c ?d i] =>
          by_amplitude_moves
            (fun j => if matches_pattern 6 a b c d j then flip 6 4 j else j)
      end]).
Qed.

Lemma flip_val_if_pattern_on_any_state_witness :
  exists c,
    build (Grover.flip_val_if_pattern (LineQubit_range 6) 0 1 2 3 4 [0; 1; 1; 0]) = Ok c /\
    amp_at (run 6 c (ket [false; true; true; false; false; false])) 26 = Amp.one.
Proof.
  destruct (@flip_val_if_pattern_on_any_state false true true false
              (ket [false; true; true; false; false; false]) 26%N
              ltac:(vm_compute; reflexivity)) as (c & Hc & Hamp).
  exists c. split; [exact Hc|]. rewrite Hamp. reflexivity.
Defined.

(** X3: quantum_architect_v2.py and quantum_architect_muli_rule.py, on any
    state of the nine qubits and whatever the ancillas hold: the oracle
    moves amplitudes only between val = 0 and val = 1, never across data
    or ancilla values, and a second call undoes the first. *)
Theorem oracle_count_nonoverlapping_adjacency_on_any_state :
  forall (st : state) (i : N),
    (i < 2 ^ N.of_nat 9)%N ->
    exists c,
      build (ArchitectV2.oracle_count_nonoverlapping_adjacency (LineQubit_range 9)) = Ok c /\
      build (MultiRule.oracle_count_nonoverlapping_adjacency (LineQubit_range 9)) = Ok c /\
      amp_at (run 9 c st) i = amp_at st (if v2_mark_at i then flip 9 4 i else i) /\
      amp_at (run 9 (c ++ c) st) i = amp_at st i.
Proof.
  intros st i Hi. exists v2_oracle_ops.
  split; [vm_compute; reflexivity|]. split; [vm_compute; reflexivity|].
  split.
  - by_amplitude_moves (fun j => if v2_mark_at j then flip 9 4 j else j).
  - by_amplitude_moves (fun j : N => j).
Qed.

Lemma oracle_count_nonoverlapping_adjacency_on_any_state_witness :
  exists c,
    build (ArchitectV2.oracle_count_nonoverlapping_adjacency (LineQubit_range 9)) = Ok c /\
    amp_at (run 9 c (ket [true; true; false; false; false; false; false; false; false]))
           400 = Amp.one.
Proof.
  destruct (@oracle_count_nonoverlapping_adjacency_on_any_state
              (ket [true; true; false; false; false; false; false; false; false])
              400%N ltac:(vm_compute; reflexivity)) as (c & Hc & _ & Hamp & _).
  exists c. split; [exact Hc|]. rewrite Hamp. reflexivity.
Defined.

(** X10: The oracle of quantum_architect/quantum_architect.py, on any state of
    the nine allocated qubits: amplitudes move only between val = 0 and
    val = 1; with clean ancillas that happens for the data values in which
    exactly one of the windows (q0,q1), (q2,q3) is 11, whatever the number
    of 1s, so also for 1101, 1110, 0111 and 1011. *)
Theorem oracle_nonoverlapping_adjacency_on_any_state :
  forall (st : state) (i : N),
    (i < 2 ^ N.of_nat 9)%N ->
    exists c,
      build (ArchitectAdjacency.oracle_nonoverlapping_adjacency (LineQubit_range 9)) = Ok c /\
      amp_at (run 9 c st) i =
        amp_at st (if adjacency_mark_at i then flip 9 4 i else i) /\
      (forall q0 q1 q2 q3 : bool,
         adjacency_mark q0 q1 q2 q3 false false false = xorb (q0 && q1) (q2 && q3)).
Proof.
  intros st i Hi. eexists. split; [vm_compute; reflexivity|].
  split; [|reflexivity].
  by_amplitude_moves (fun j => if adjacency_mark_at j then flip 9 4 j else j).
Qed.

Lemma oracle_nonoverlapping_adjacency_on_any_state_witness :
  exists c,
    build (ArchitectAdjacency.oracle_nonoverlapping_adjacency (LineQubit_range 9)) = Ok c /\
    amp_at (run 9 c (ket [true; true; true; false; false; false; false; false; false]))
           464 = Amp.one.
Proof.
  destruct (@oracle_nonoverlapping_adjacency_on_any_state
              (ket [true; true; true; false; false; false; false; false; false])
              464%N ltac:(vm_compute; reflexivity)) as (c & Hc & Hamp & _).
  exists c. split; [exact Hc|]. rewrite Hamp. reflexivity.
Defined.

(** ** The shape of the circuits, continued *)

Lemma v2_iteration_emitted :
  emits (ArchitectV2.oracle_count_nonoverlapping_adjacency (LineQubit_range 9) ;;
         ArchitectV2.diffusion 0 1 2 3) tt v2_iteration.
Proof.
  apply uniform_emits.
  - apply uniform_bind; [apply architect_v2_oracle_uniform|].
    intros _. unfold ArchitectV2.diffusion. uniform_tac.
  - vm_compute. reflexivity.
Qed.

Lemma architect_v2_circuit_shape (k : Z) :
  ArchitectV2.build_grover_circuit k =
  Ok (H_on_each [0; 1; 2; 3]
      ++ concat (repeat v2_iteration (Z.to_nat k))
      ++ [measure [0; 1; 2; 3] "result"]).
Proof.
  assert (E : emits
            (val <- index (LineQubit_range 9) 4 ;;
             append (H_on_each [0; 1; 2; 3]) ;;
             for_range k
               (ArchitectV2.oracle_count_nonoverlapping_adjacency (LineQubit_range 9) ;;
                ArchitectV2.diffusion 0 1 2 3) ;;
             append [measure [0; 1; 2; 3] "result"])
            tt
            ([] ++ H_on_each [0; 1; 2; 3]
             ++ concat (repeat v2_iteration (Z.to_nat k))
             ++ [measure [0; 1; 2; 3] "result"])).
  { eapply emits_bind.
    - apply uniform_emits; [apply uniform_index | reflexivity].
    - eapply emits_bind; [apply emits_append|].
      eapply emits_bind; [|apply emits_append].
      apply emits_repeat_n, v2_iteration_emitted. }
  unfold ArchitectV2.build_grover_circuit, build. cbv zeta.
  change (firstn 4 (LineQubit_range 9)) with [0; 1; 2; 3]. cbv iota.
  match goal with
  | |- match ?m with pair _ _ => _ end = _ =>
      replace m with (@Ok unit tt,
                      [] ++ [] ++ H_on_each [0; 1; 2; 3]
                         ++ concat (repeat v2_iteration (Z.to_nat k))
                         ++ [measure [0; 1; 2; 3] "result"])
        by (symmetry; exact (E []))
  end.
  reflexivity.
Qed.

Lemma length_concat_repeat {A} (l : list A) (k : nat) :
  List.length (concat (repeat l k)) = k * List.length l.
Proof.
  induction k as [|k IH]; [reflexivity|].
  cbn [repeat concat]. rewrite length_app, IH. lia.
Qed.

(** X5: For every iteration count the circuits are the four Hadamards, one
    fixed block per iteration and a single measurement of q0..q3, which is
    the last operation: 5 + 47 k operations in grover.py and 5 + 86 k in
    quantum_architect_v2.py, where k counts the iterations run. *)
Theorem circuits_measure_once_at_the_end :
  forall num_iterations : Z,
  exists gates_g gates_v,
    Grover.build_grover_circuit num_iterations =
      Ok (gates_g ++ [measure [0; 1; 2; 3] "result"]) /\
    ArchitectV2.build_grover_circuit num_iterations =
      Ok (gates_v ++ [measure [0; 1; 2; 3] "result"]) /\
    forallb is_gate gates_g = true /\
    forallb is_gate gates_v = true /\
    List.length gates_g = 4 + 47 * Z.to_nat num_iterations /\
    List.length gates_v = 4 + 86 * Z.to_nat num_iterations.
Proof.
  intros k.
  exists (H_on_each [0; 1; 2; 3] ++ concat (repeat grover_iteration (Z.to_nat k))),
         (H_on_each [0; 1; 2; 3] ++ concat (repeat v2_iteration (Z.to_nat k))).
  split; [rewrite grover_circuit_shape; now rewrite <- app_assoc|].
  split; [rewrite architect_v2_circuit_shape; now rewrite <- app_assoc|].
  split; [|split].
  - rewrite forallb_app. apply andb_true_iff; split; [reflexivity|].
    apply forallb_concat_repeat. reflexivity.
  - rewrite forallb_app. apply andb_true_iff; split; [reflexivity|].
    apply forallb_concat_repeat. reflexivity.
  - assert (Hg : List.length (concat (repeat grover_iteration (Z.to_nat k)))
                 = Z.to_nat k * 47) by apply length_concat_repeat.
    assert (Hv : List.length (concat (repeat v2_iteration (Z.to_nat k)))
                 = Z.to_nat k * 86) by apply length_concat_repeat.
    rewrite !length_app, Hg, Hv. cbn [H_on_each map List.length]. lia.
Qed.

(** X6: With a non-positive iteration count the loop body never runs: the
    circuit is the Hadamards followed by the measurement, and each of the
    16 outcomes has probability 1/16. *)
Theorem nonpositive_iterations_sample_uniformly :
  forall (num_iterations : Z) (d0 d1 d2 d3 : bool),
    (num_iterations <= 0)%Z ->
    let c := H_on_each [0; 1; 2; 3] ++ [measure [0; 1; 2; 3] "result"] in
    Grover.build_grover_circuit num_iterations = Ok c /\
    ArchitectV2.build_grover_circuit num_iterations = Ok c /\
    success_probability 6 c [index_of_bits [d0; d1; d2; d3]] = one_sixteenth /\
    success_probability 9 c [index_of_bits [d0; d1; d2; d3]] = one_sixteenth.
Proof.
  intros k d0 d1 d2 d3 Hk. cbv zeta.
  assert (Hz : Z.to_nat k = 0) by lia.
  split; [rewrite grover_circuit_shape, Hz; reflexivity|].
  split; [rewrite architect_v2_circuit_shape, Hz; reflexivity|].
  split; destruct d0, d1, d2, d3; vm_compute; reflexivity.
Qed.

Lemma nonpositive_iterations_sample_uniformly_witness :
  Grover.build_grover_circuit (-1) =
    Ok (H_on_each [0; 1; 2; 3] ++ [measure [0; 1; 2; 3] "result"]) /\
  success_probability 6 (H_on_each [0; 1; 2; 3] ++ [measure [0; 1; 2; 3] "result"])
    [index_of_bits [true; true; false; false]] = one_sixteenth.
Proof.
  pose proof (@nonpositive_iterations_sample_uniformly (-1) true true false false
                ltac:(lia)) as (Hg & _ & Hp & _).
  split; [exact Hg | exact Hp].
Defined.

Lemma grover_probabilities :
  exists c1 c2 c3,
    Grover.build_grover_circuit 1 = Ok c1 /\
    Grover.build_grover_circuit 2 = Ok c2 /\
    Grover.build_grover_circuit 3 = Ok c3 /\
    success_probability 6 c1 Grover.valid_states = Amp.mk (63 # 128) (15 # 256) /\
    success_probability 6 c2 Grover.valid_states = Amp.mk (147 # 512) (-45 # 1024) /\
    success_probability 6 c3 Grover.valid_states = Amp.mk (1083 # 2048) (315 # 4096).
Proof.
  do 3 eexists.
  split; [vm_compute; reflexivity|].
  split; [vm_compute; reflexivity|].
  split; [vm_compute; reflexivity|].
  split; [vm_compute; reflexivity|].
  split; vm_compute; reflexivity.
Qed.

(** X7: Of the iteration counts grover.py tries, three gives the exactly-two
    layouts the highest probability, one comes second, and two drops
    the valid set below the uniform 6/16. *)
Theorem grover_two_iterations_fall_below_uniform :
  exists c1 c2 c3,
    Grover.build_grover_circuit 1 = Ok c1 /\
    Grover.build_grover_circuit 2 = Ok c2 /\
    Grover.build_grover_circuit 3 = Ok c3 /\
    (Amp.toR (success_probability 6 c2 Grover.valid_states) < 6 / 16)%R /\
    (6 / 16 < Amp.toR (success_probability 6 c1 Grover.valid_states))%R /\
    (Amp.toR (success_probability 6 c1 Grover.valid_states)
     < Amp.toR (success_probability 6 c3 Grover.valid_states))%R.
Proof.
  destruct grover_probabilities as (c1 & c2 & c3 & H1 & H2 & H3 & P1 & P2 & P3).
  exists c1, c2, c3. repeat (split; [assumption|]).
  rewrite P1, P2, P3. unfold Amp.toR, Q2R; simpl.
  pose proof sqrt2_lower. pose proof sqrt2_upper. repeat split; lra.
Qed.

(** ** The three-room driver *)

Lemma architect3_probabilities :
  exists c,
    Architect3Build.build_grover_circuit = Ok c /\
    success_probability 4 c [6%N] = Amp.mk (193 # 512) (33 # 128) /\
    success_probability 4 c [3%N] = Amp.mk (67 # 512) (-21 # 256).
Proof.
  eexists. split; [vm_compute; reflexivity|].
  split; vm_compute; reflexivity.
Qed.

(** X9: The two Grover iterations of quantum_architect.py amplify only one
    of the two layouts its report calls valid: 110 is sampled with
    probability above 7/10, 011 with probability below the uniform 1/8. *)
Theorem three_room_circuit_amplifies_110_only :
  exists c,
    Architect3Build.build_grover_circuit = Ok c /\
    (7 / 10 < Amp.toR (success_probability 4 c [6%N]))%R /\
    (Amp.toR (success_probability 4 c [3%N]) < 1 / 8)%R.
Proof.
  destruct architect3_probabilities as (c & Hc & P6 & P3).
  exists c. split; [exact Hc|].
  rewrite P6, P3. unfold Amp.toR, Q2R; simpl.
  pose proof sqrt2_lower. pose proof sqrt2_upper. split; lra.
Qed.

(** ** The text reports *)

Section ReportFacts.
Import Report.
Local Open Scope string_scope.

Lemma string_length_app (s t : string) :
  String.length (s ++ t) = String.length s + String.length t.
Proof. induction s as [|ch s IH]; [reflexivity|]. cbn. now rewrite IH. Qed.

Lemma int2_from_app (s t : string) (acc : N) :
  int2_from acc (s ++ t) =
  match int2_from acc s with
  | Ok a => int2_from a t
  | Raise e => Raise e
  end.
Proof.
  revert acc. induction s as [|ch s IH]; intros acc; [reflexivity|].
  change (String ch s ++ t) with (String ch (s ++ t)).
  cbn [int2_from].
  destruct (Ascii.eqb ch "0"); [apply IH|].
  destruct (Ascii.eqb ch "1"); [apply IH | reflexivity].
Qed.

Lemma int2_from_zeros (k : nat) (s : string) :
  int2_from 0 (zeros k ++ s) = int2_from 0 s.
Proof. induction k as [|k IH]; [reflexivity|]. cbn. exact IH. Qed.

Lemma int2_from_pos_digits (p : positive) (acc : N) :
  int2_from acc (pos_digits p) =
  Ok (acc * 2 ^ N.of_nat (String.length (pos_digits p)) + Npos p)%N.
Proof.
  revert acc. induction p as [q IH|q IH|]; intros acc; cbn [pos_digits].
  - rewrite int2_from_app, IH, string_length_app.
    change (String.length "1") with 1.
    rewrite Nat.add_1_r, Nat2N.inj_succ, N.pow_succ_r'.
    set (pw := (2 ^ N.of_nat (String.length (pos_digits q)))%N).
    change (int2_from (acc * pw + N.pos q) "1")
      with (@Ok N (2 * (acc * pw + N.pos q) + 1)%N).
    f_equal. lia.
  - rewrite int2_from_app, IH, string_length_app.
    change (String.length "0") with 1.
    rewrite Nat.add_1_r, Nat2N.inj_succ, N.pow_succ_r'.
    set (pw := (2 ^ N.of_nat (String.length (pos_digits q)))%N).
    change (int2_from (acc * pw + N.pos q) "0")
      with (@Ok N (2 * (acc * pw + N.pos q))%N).
    f_equal. lia.
  - change (int2_from acc "1") with (@Ok N (2 * acc + 1)%N).
    change (String.length "1") with 1.
    f_equal. change (2 ^ N.of_nat 1)%N with 2%N. lia.
Qed.

Lemma format_b_not_empty (width : nat) (n : N) : format_b width n <> "".
Proof.
  unfold format_b. intros Heq.
  apply (f_equal String.length) in Heq.
  rewrite string_length_app in Heq. cbn [String.length] in Heq.
  destruct n as [|p]; cbn [String.length] in Heq; [lia|].
  destruct p; cbn [pos_digits] in Heq;
    rewrite ?string_length_app in Heq; cbn [String.length] in Heq; lia.
Qed.

Lemma int_base2_of_format_b (width : nat) (state : N) :
  int_base2 (format_b width state) = Ok state.
Proof.
  unfold int_base2.
  pose proof (format_b_not_empty width state) as Hne.
  destruct (format_b width state) as [|ch rest] eqn:Ef; [congruence|].
  rewrite <- Ef. unfold format_b. rewrite int2_from_zeros.
  destruct state as [|p]; [reflexivity|].
  rewrite int2_from_pos_digits. reflexivity.
Qed.

Lemma pos_digits_length (p : positive) (width : nat) :
  (Npos p < 2 ^ N.of_nat width)%N -> String.length (pos_digits p) <= width.
Proof.
  revert width. induction p as [q IH|q IH|]; intros width Hlt;
    (destruct width as [|w]; [change (2 ^ N.of_nat 0)%N with 1%N in Hlt; lia|]);
    rewrite Nat2N.inj_succ, N.pow_succ_r' in Hlt; cbn [pos_digits].
  - rewrite string_length_app. cbn [String.length].
    specialize (IH w ltac:(lia)). lia.
  - rewrite string_length_app. cbn [String.length].
    specialize (IH w ltac:(lia)). lia.
  - cbn [String.length]. lia.
Qed.

Lemma zeros_length (k : nat) : String.length (zeros k) = k.
Proof. induction k as [|k IH]; [reflexivity|]. cbn. now rewrite IH. Qed.

Lemma format_b_length (width : nat) (state : N) :
  (state < 2 ^ N.of_nat width)%N -> 0 < width ->
  String.length (format_b width state) = width.
Proof.
  intros Hlt Hw. unfold format_b.
  rewrite string_length_app, zeros_length.
  destruct state as [|p].
  - cbn [String.length]. lia.
  - pose proof (@pos_digits_length p width Hlt). lia.
Qed.

Lemma map_result_map_ok {A B C} (f : B -> result C) (h : A -> B) (g : A -> C)
    (xs : list A) :
  (forall x, In x xs -> f (h x) = Ok (g x)) ->
  map_result f (map h xs) = Ok (map g xs).
Proof.
  induction xs as [|x xs IH]; intros Hall; [reflexivity|].
  cbn [map map_result]. rewrite (Hall x (or_introl eq_refl)).
  rewrite IH; [reflexivity|]. intros y Hy. apply Hall. now right.
Qed.

(** X11: In the plots, bar [i] shows the count of outcome [i], for every
    histogram: no label of [states] makes [int(s, 2)] raise, and [data] is
    the list of [counts.get(i, 0)] for i = 0, ..., 15, the count of the
    outcome, or 0 for an outcome never sampled.  The sixteen labels have
    four characters each and are all different. *)
Theorem plot_data_reads_each_outcome :
  forall counts : Plots.histogram,
    Plots.data counts =
      Ok (map (fun i => Plots.get counts (N.of_nat i) 0%N) (seq 0 16)) /\
    Forall (fun s => String.length s = 4) Plots.states /\
    NoDup Plots.states.
Proof.
  intros counts. split; [|split].
  - unfold Plots.data, Plots.states.
    apply map_result_map_ok with
      (g := fun i => Plots.get counts (N.of_nat i) 0%N).
    intros i _. now rewrite int_base2_of_format_b.
  - unfold Plots.states. apply Forall_forall. intros s Hs.
    apply in_map_iff in Hs as (i & <- & Hi). apply in_seq in Hi.
    apply format_b_length; [|lia].
    change (2 ^ N.of_nat 4)%N with 16%N. lia.
  - unfold Plots.states. apply NoDup_map_NoDup_ForallPairs; [|apply seq_NoDup].
    intros i j _ _ Heq.
    apply (f_equal int_base2) in Heq.
    rewrite !int_base2_of_format_b in Heq. injection Heq as Heq.
    now apply Nat2N.inj.
Qed.

(** X12: The report of quantum_architect_v2.py and draw_utils.py calls an
    outcome VALID exactly when it is 12 (1100) or 3 (0011), for every
    integer outcome. *)
Theorem v2_report_valid_iff_12_or_3 :
  forall state : N,
    v2_is_valid state = existsb (N.eqb state) ArchitectV2.valid_states.
Proof.
  intros state. unfold v2_is_valid, string_in. cbv zeta.
  cbn [existsb ArchitectV2.valid_states].
  pose proof (int_base2_of_format_b 4 state) as Hrt.
  destruct (String.eqb_spec (format_b 4 state) "1100") as [E1|N1].
  - rewrite E1 in Hrt. injection Hrt as <-. reflexivity.
  - destruct (String.eqb_spec (format_b 4 state) "0011") as [E2|N2].
    + rewrite E2 in Hrt. injection Hrt as <-. reflexivity.
    + destruct (N.eqb_spec state 12) as [->|_]; [now elim N1|].
      destruct (N.eqb_spec state 3) as [->|_]; [now elim N2|].
      reflexivity.
Qed.

(** X13: For the 16 outcomes of grover.py's four measured qubits, the three
    validity tests of the script agree: counting the 1s of the binary
    string, membership in the plot's list of green states, and having
    exactly two of the measured bits set. *)
Theorem grover_report_valid_iff_two_bits :
  forall d0 d1 d2 d3 : bool,
    let state := index_of_bits [d0; d1; d2; d3] in
    grover_is_valid state = exactly_two d0 d1 d2 d3 /\
    string_in (format_b 4 state) grover_plot_valid_states = exactly_two d0 d1 d2 d3 /\
    existsb (N.eqb state) Grover.valid_states = exactly_two d0 d1 d2 d3.
Proof. intros [] [] [] []; repeat split; reflexivity. Qed.

End ReportFacts.

(** ** The oracle of the best design *)

Section BestDesign.
Context {A : Type} {HN : PyNum A} {HO : PyOrd A}.
Import GroverSimpleCircuit.

Lemma mark_state_emits (i : nat) :
  i < 8 -> emits (mark_state (LineQubit_range 3) i) tt (mark_ops i).
Proof.
  intros Hi.
  do 8 (destruct i as [|i];
        [apply uniform_emits;
         [unfold mark_state, x_where_zero_char; uniform_tac | reflexivity]|]).
  lia.
Qed.

Lemma marking_loop_emits (min_fitness : A) (fitness_values : list A) (start : nat) :
  start + List.length fitness_values <= 8 ->
  emits
    (for_each (combine (seq start (List.length fitness_values)) fitness_values)
       (fun '(i, fitness) =>
          if is_minimal min_fitness fitness
          then mark_state (LineQubit_range 3) i
          else ret tt))
    tt
    (phase_ops_from start (map (is_minimal min_fitness) fitness_values)).
Proof.
  revert start. induction fitness_values as [|f fs IH]; intros start Hlen.
  - intros c. cbn. unfold ret. now rewrite app_nil_r.
  - cbn [List.length seq combine for_each map phase_ops_from].
    cbn [List.length] in Hlen.
    eapply emits_bind; [|apply IH; lia].
    destruct (is_minimal min_fitness f).
    + apply mark_state_emits. lia.
    + intros c. unfold ret. now rewrite app_nil_r.
Qed.

(** What the oracle emits once the fitness values and their minimum are
    computed. *)
Lemma oracle_for_best_design_emits (designs : list (list A))
    (fitness_values : list A) (min_fitness : A) (fq : list qubit) :
  map_result GroverSimple.calculate_fitness_default designs = Ok fitness_values ->
  py_min fitness_values = Ok min_fitness ->
  List.length fitness_values <= 8 ->
  emits (oracle_for_best_design designs (LineQubit_range 3) fq) tt
        (phase_ops (map (is_minimal min_fitness) fitness_values)).
Proof.
  intros Hf Hm Hlen c.
  unfold oracle_for_best_design, bind at 1, lift_result at 1. rewrite Hf.
  unfold bind at 1, lift_result. rewrite Hm. cbv zeta.
  apply marking_loop_emits. simpl. exact Hlen.
Qed.

End BestDesign.

Lemma phase_ops_flip_marked (marks : list bool) (x0 x1 x2 : bool) :
  List.length marks <= 8 ->
  run 3 (phase_ops marks) (ket [x0; x1; x2]) =
  scale (phase_of (nth (N.to_nat (index_of_bits [x0; x1; x2])) marks false))
        (ket [x0; x1; x2]).
Proof.
  intros Hlen.
  do 9 (destruct marks as [|[] marks];
        [destruct x0, x1, x2; vm_compute; reflexivity| |]);
  cbn [List.length] in Hlen; lia.
Qed.

Lemma map_result_length {A B} (f : A -> result B) (xs : list A) (ys : list B) :
  map_result f xs = Ok ys -> List.length ys = List.length xs.
Proof.
  revert ys. induction xs as [|x xs IH]; intros ys Hf; cbn [map_result] in Hf.
  - injection Hf as <-. reflexivity.
  - destruct (f x) as [y|e]; [|discriminate].
    destruct (map_result f xs) as [ys'|e]; [|discriminate].
    injection Hf as <-. cbn [List.length]. now rewrite (IH ys' eq_refl).
Qed.



Lemma map_result_raises {A B} (f : A -> result B) (xs : list A) (bad : A) :
  (forall x e, f x = Raise e -> e = ValueError) ->
  In bad xs -> f bad = Raise ValueError ->
  map_result f xs = Raise ValueError.
Proof.
  intros Honly Hin Hbad. induction xs as [|x xs IH]; [contradiction|].
  cbn [map_result]. destruct (f x) as [y|e] eqn:Ex.
  - destruct Hin as [->|Hin]; [congruence|]. now rewrite IH.
  - now rewrite (Honly x e Ex).
Qed.

(** X15: The oracle raises a ValueError before it appends anything, so
    that the circuit it was handed is left as it was, when the design list
    is empty (the minimum of nothing) and when some design is not a
    triple. *)
Theorem oracle_for_best_design_rejects :
  forall (A : Type) (HN : PyNum A) (HO : PyOrd A)
         (designs : list (list A)) (qubits fq : list qubit) (c : circuit),
    designs = [] \/ (exists bad, In bad designs /\ List.length bad <> 3) ->
    GroverSimpleCircuit.oracle_for_best_design designs qubits fq c =
    (Raise ValueError, c).
Proof.
  intros A HN HO designs qubits fq c [->|(bad & Hin & Hlen)].
  - reflexivity.
  - unfold GroverSimpleCircuit.oracle_for_best_design, bind at 1, lift_result at 1.
    rewrite (@map_result_raises _ _ GroverSimple.calculate_fitness_default designs bad);
      [reflexivity| |exact Hin|].
    + intros x e Hx. unfold GroverSimple.calculate_fitness_default,
        GroverSimple.calculate_fitness in Hx.
      destruct x as [|a [|b [|d [|? ?]]]]; congruence.
    + unfold GroverSimple.calculate_fitness_default, GroverSimple.calculate_fitness.
      destruct bad as [|a [|b [|d [|? ?]]]]; try reflexivity.
      now elim Hlen.
Qed.

Lemma oracle_for_best_design_rejects_witness :
  GroverSimpleCircuit.oracle_for_best_design (A:=Q) [] (LineQubit_range 3) []
    (H_on_each [0; 1; 2]) = (Raise ValueError, H_on_each [0; 1; 2]) /\
  GroverSimpleCircuit.oracle_for_best_design (A:=Q)
    [[4 # 1; 120 # 1; 250 # 1]; [5 # 1; 150 # 1]]%Q (LineQubit_range 3) []
    (H_on_each [0; 1; 2]) = (Raise ValueError, H_on_each [0; 1; 2]).
Proof.
  split.
  - apply oracle_for_best_design_rejects. left. reflexivity.
  - apply oracle_for_best_design_rejects. right.
    exists [5 # 1; 150 # 1]%Q. split; [right; left; reflexivity | simpl; lia].
Defined.

Lemma grover_simple_probabilities :
  exists c,
    GroverSimpleCircuit.build_grover_circuit (A:=Q) = Ok c /\
    success_probability 3 c [6%N] = Amp.mk (19 # 64) (3 # 32) /\
    map (fun v => success_probability 3 c [v]) [0; 1; 2; 3; 4; 5; 7]%N =
      [Amp.mk (3 # 64) (-1 # 32); Amp.mk (9 # 64) 0;
       Amp.mk (3 # 64) (-1 # 32); Amp.mk (9 # 64) 0;
       Amp.mk (3 # 64) (-1 # 32); Amp.mk (9 # 64) 0;
       Amp.mk (9 # 64) 0].
Proof.
  eexists. split; [vm_compute; reflexivity|].
  split; vm_compute; reflexivity.
Qed.

(** X16: With exact fitness values, the circuit of grover_simple.py makes
    state 110, the design of least fitness (design 7), the most likely
    outcome: its probability is above 2/5 and no other outcome reaches
    3/20. *)
Theorem grover_simple_favours_best_design :
  exists c,
    GroverSimpleCircuit.build_grover_circuit (A:=Q) = Ok c /\
    (2 / 5 < Amp.toR (success_probability 3 c [6%N]))%R /\
    Forall (fun v => (Amp.toR (success_probability 3 c [v]) < 3 / 20)%R)
           [0; 1; 2; 3; 4; 5; 7]%N.
Proof.
  destruct grover_simple_probabilities as (c & Hc & P6 & Pothers).
  exists c. split; [exact Hc|].
  rewrite P6. split.
  - unfold Amp.toR, Q2R; simpl. pose proof sqrt2_lower. lra.
  - apply Forall_forall. intros v Hv.
    apply (in_map (fun v => success_probability 3 c [v])) in Hv.
    rewrite Pothers in Hv.
    pose proof sqrt2_lower. pose proof sqrt2_upper.
    repeat (destruct Hv as [<-|Hv]; [unfold Amp.toR, Q2R; simpl; lra|]).
    contradiction.
Qed.

(** ** The entangled pair *)

(** X17: [measure_entangled_states] starts from a fresh circuit: whatever the
    circuit attribute held before, afterwards it is H, CNOT and the two
    measurements, and sampling it gives 00 or 11, each with probability
    1/2, never 01 or 10. *)
Theorem measure_entangled_states_resets_and_correlates :
  forall before : circuit,
  exists c,
    EntangledTurtles.measure_entangled_states_circuit before = (Ok tt, c) /\
    c = [H 0; CNOT 0 1; measure [0] "q1"; measure [1] "q2"] /\
    pair_distribution c = [one_half; Amp.zero; Amp.zero; one_half].
Proof.
  intros before. eexists. split; [reflexivity|].
  split; [reflexivity | vm_compute; reflexivity].
Qed.

Lemma create_entanglement_n_times (n : nat) :
  build (repeat_n n EntangledTurtles.create_entanglement ;;
         append [measure [0] "q1"] ;; append [measure [1] "q2"])
  = Ok (entangled_n_times n).
Proof.
  assert (E : emits
            (repeat_n n EntangledTurtles.create_entanglement ;;
             append [measure [0] "q1"] ;; append [measure [1] "q2"])
            tt
            (concat (repeat [H 0; CNOT 0 1] n)
             ++ [measure [0] "q1"] ++ [measure [1] "q2"])).
  { eapply emits_bind.
    - apply emits_repeat_n.
      apply uniform_emits; [unfold EntangledTurtles.create_entanglement; uniform_tac
                           | reflexivity].
    - eapply emits_bind; apply emits_append. }
  unfold build. rewrite (E []). reflexivity.
Qed.

Lemma entangled_state_period (n : nat) :
  run 2 (concat (repeat [H 0; CNOT 0 1] (8 + n))) (basis 2 0) =
  run 2 (concat (repeat [H 0; CNOT 0 1] n)) (basis 2 0).
Proof.
  rewrite repeat_app, concat_app, run_app.
  reflexivity.
Qed.

Lemma disagreement_period (n : nat) :
  disagreement (entangled_n_times (8 + n)) = disagreement (entangled_n_times n).
Proof.
  unfold disagreement, success_probability, entangled_n_times.
  rewrite !run_app, entangled_state_period.
  reflexivity.
Qed.

Lemma disagreement_mod_8 (n : nat) :
  disagreement (entangled_n_times n) = disagreement (entangled_n_times (n mod 8)).
Proof.
  induction n as [n IH] using lt_wf_ind.
  destruct (Nat.lt_ge_cases n 8) as [Hlt|Hge].
  - now rewrite Nat.mod_small.
  - replace n with (8 + (n - 8)) at 1 by lia.
    rewrite disagreement_period, (IH (n - 8)) by lia.
    f_equal. f_equal.
    replace n with ((n - 8) + 1 * 8) at 2 by lia.
    now rewrite Nat.Div0.mod_add.
Qed.

(** X18: [create_entanglement] only appends, so calling it [n] times on an
    empty circuit stacks [n] copies of H, CNOT.  The two measured bits
    then agree with certainty exactly when [n] is 0 or 1 modulo 8: the
    circuit has to be fresh, as [measure_entangled_states] makes it. *)
Theorem create_entanglement_correlates_only_once :
  forall n : nat,
    build (repeat_n n EntangledTurtles.create_entanglement ;;
           append [measure [0] "q1"] ;; append [measure [1] "q2"])
      = Ok (entangled_n_times n) /\
    (disagreement (entangled_n_times n) = Amp.zero <-> n mod 8 = 0 \/ n mod 8 = 1).
Proof.
  intros n. split; [apply create_entanglement_n_times|].
  rewrite disagreement_mod_8.
  pose proof (Nat.mod_upper_bound n 8 ltac:(lia)) as Hm.
  set (r := n mod 8) in *. clearbody r.
  do 8 (destruct r as [|r];
        [vm_compute; split;
         [intros Heq; (left; reflexivity) || (right; reflexivity) || discriminate Heq
         |intros [Heq|Heq]; (reflexivity || discriminate Heq)]|]).
  lia.
Qed.

(** ** Recording and saving frames *)

Section GifFacts.
Import DrawingUtils DrawingSpec DrawingGif.
Local Open Scope string_scope.

Variable image : Type.
Variable E : env image.
Variable gif_save : image -> string -> list image -> Z -> result unit.
Variable exn_text : exn -> string.

(** X19: [save_as_gif] never raises and prints exactly one line: the hint
    when no frame was recorded, the confirmation when the save succeeds,
    the error text when it fails.  Frames and recording flag are kept. *)
Theorem save_as_gif_never_raises :
  forall (filename : string) (duration : Z) (w : world image),
    save_as_gif gif_save exn_text filename duration w =
    (Ok tt,
     with_console w
       [match frames w with
        | [] => "No frames recorded. Call start_gif_recording() first."
        | first :: rest =>
            match gif_save first filename rest duration with
            | Ok _ => "Animation saved as " ++ filename
            | Raise e => "Error saving GIF: " ++ exn_text e
            end
        end]).
Proof.
  intros filename duration w. unfold save_as_gif.
  destruct (frames w) as [|first rest]; [reflexivity|].
  destruct (gif_save first filename rest duration); reflexivity.
Qed.

Lemma capture_frame_records (w : world image) (x y width height : Z) (img : image) :
  pil_installed E = true ->
  screen_update E = Ok tt ->
  canvas_geometry E = Ok (x, y, width, height) ->
  image_grab E (x, y, x + width, y + height)%Z = Ok img ->
  is_recording w = true ->
  capture_frame E w =
  (Ok tt, {| console := console w; frames := frames w ++ [img]; is_recording := true |}).
Proof.
  intros Hpil Hup Hgeo Hgrab Hrec.
  unfold capture_frame. rewrite Hrec. cbn [negb].
  unfold try_except_ImportError, io_bind, import_PIL, grab_canvas, io_bind, io_lift,
    io_ret, append_frame.
  rewrite Hpil. cbn. rewrite Hup, Hgeo. cbn. rewrite Hgrab. cbn.
  now rewrite Hrec.
Qed.

(** X20: With PIL present and the screen calls succeeding, each
    [capture_frame] after [start_gif_recording] adds exactly the grabbed
    image: after [n] captures there are [n] frames, whatever frames an
    earlier recording had left, and nothing has been printed. *)
Theorem recording_collects_one_frame_per_capture :
  forall (n : nat) (w : world image) (x y width height : Z) (img : image),
    pil_installed E = true ->
    screen_update E = Ok tt ->
    canvas_geometry E = Ok (x, y, width, height) ->
    image_grab E (x, y, x + width, y + height)%Z = Ok img ->
    io_bind (@start_gif_recording image)
            (fun _ => io_repeat n (capture_frame E)) w =
    (Ok tt, {| console := console w; frames := repeat img n; is_recording := true |}).
Proof.
  intros n w x y width height img Hpil Hup Hgeo Hgrab.
  unfold io_bind at 1, start_gif_recording.
  assert (Hloop : forall k fs,
             io_repeat k (capture_frame E)
               {| console := console w; frames := fs; is_recording := true |} =
             (Ok tt, {| console := console w; frames := fs ++ repeat img k;
                        is_recording := true |})).
  { induction k as [|k IH]; intros fs.
    - cbn. now rewrite app_nil_r.
    - cbn [io_repeat]. unfold io_bind at 1.
      rewrite (capture_frame_records _ Hpil Hup Hgeo Hgrab) by reflexivity.
      cbn [console frames is_recording]. rewrite IH.
      cbn [repeat]. now rewrite <- app_assoc. }
  apply Hloop.
Qed.

Lemma capture_loop_without_PIL (n : nat) (w : world image) :
  pil_installed E = false ->
  is_recording w = true ->
  io_repeat n (capture_frame E) w =
  (Ok tt, with_console w (concat (repeat gif_notice n))).
Proof.
  intros Hpil. revert w. induction n as [|n IH]; intros w Hrec.
  - cbn. unfold io_ret, with_console. rewrite app_nil_r. now destruct w.
  - cbn [io_repeat]. unfold io_bind at 1.
    rewrite (capture_frame_without_PIL _ _ Hpil), Hrec.
    rewrite IH by exact Hrec.
    unfold with_console. cbn [console frames is_recording repeat concat].
    now rewrite <- app_assoc.
Qed.

(** X21: Without PIL the export calls of [main] all fall back to the console:
    each capture prints its two-line notice, the PNG export prints its
    own, and [save_as_gif], finding no frame, prints the hint to call
    [start_gif_recording] although it was called.  Nothing raises and no
    file operation is reached. *)
Theorem export_without_PIL_only_prints :
  forall (steps : nat) (png gif : string) (w : world image),
    pil_installed E = false ->
    export_sequence E gif_save exn_text steps png gif w =
    (Ok tt,
     {| console := console w
                   ++ concat (repeat gif_notice steps)
                   ++ png_notice
                   ++ ["No frames recorded. Call start_gif_recording() first."];
        frames := [];
        is_recording := true |}).
Proof.
  intros steps png gif w Hpil.
  unfold export_sequence, io_bind at 1, start_gif_recording.
  unfold io_bind at 1. rewrite (capture_loop_without_PIL steps _ Hpil) by reflexivity.
  unfold io_bind at 1.
  rewrite (save_drawing_as_png_without_PIL _ _ _ Hpil).
  unfold save_as_gif, with_console, print. cbn [console frames is_recording].
  now rewrite <- !app_assoc.
Qed.

(** X22: Only the ImportError is caught: with PIL present, any other
    exception of the screen update leaves both methods raising it, with
    nothing printed and no frame added. *)
Theorem other_exceptions_propagate :
  forall (e : exn) (filename : string) (w : world image),
    pil_installed E = true ->
    screen_update E = Raise e ->
    e <> ImportError ->
    save_drawing_as_png E filename w = (Raise e, w) /\
    (is_recording w = true -> capture_frame E w = (Raise e, w)).
Proof.
  intros e filename w Hpil Hup Hne.
  split; [|intros Hrec; unfold capture_frame; rewrite Hrec; cbn [negb]];
    unfold save_drawing_as_png, try_except_ImportError, io_bind, import_PIL,
      grab_canvas, io_bind, io_lift, io_ret;
    rewrite Hpil; cbn; rewrite Hup; cbn;
    destruct e; try reflexivity; now elim Hne.
Qed.

End GifFacts.

Lemma recording_collects_one_frame_per_capture_witness :
  DrawingUtils.io_bind (@DrawingGif.start_gif_recording unit)
    (fun _ => DrawingGif.io_repeat 3 (DrawingUtils.capture_frame env_with_PIL))
    (DrawingUtils.init_world unit) =
  (Ok tt, {| DrawingUtils.console := [];
             DrawingUtils.frames := [tt; tt; tt];
             DrawingUtils.is_recording := true |}).
Proof.
  exact (@recording_collects_one_frame_per_capture unit env_with_PIL 3
           (DrawingUtils.init_world unit) 10 20 300 200 tt
           eq_refl eq_refl eq_refl eq_refl).
Defined.

Lemma export_without_PIL_only_prints_witness :
  DrawingGif.export_sequence DrawingUtils.env_without_PIL
    (fun _ _ _ _ => Ok tt) (fun _ => ""%string) 1
    "entanglement_turtles.png" "entanglement_turtles.gif"
    (DrawingUtils.init_world unit) =
  (Ok tt,
   {| DrawingUtils.console :=
        DrawingSpec.gif_notice ++ DrawingSpec.png_notice
        ++ ["No frames recorded. Call start_gif_recording() first."%string];
      DrawingUtils.frames := [];
      DrawingUtils.is_recording := true |}).
Proof.
  exact (@export_without_PIL_only_prints unit DrawingUtils.env_without_PIL
           (fun _ _ _ _ => Ok tt) (fun _ => ""%string) 1
           "entanglement_turtles.png" "entanglement_turtles.gif"
           (DrawingUtils.init_world unit) eq_refl).
Defined.

Lemma other_exceptions_propagate_witness :
  DrawingUtils.save_drawing_as_png env_closed_window "quantum_turtle_art.png"
    (DrawingUtils.init_world unit) =
  (Raise (OtherError "TclError"), DrawingUtils.init_world unit).
Proof.
  exact (proj1 (@other_exceptions_propagate unit env_closed_window
                  (OtherError "TclError") "quantum_turtle_art.png"
                  (DrawingUtils.init_world unit) eq_refl eq_refl
                  ltac:(discriminate))).
Defined.

(** ** Ancillas over the whole circuit *)

(** One oracle call keeps "this ancilla is 0": it only moves amplitudes
    between basis states with the same ancilla bits. *)
Lemma v2_oracle_keeps_ancilla_zero (q : qubit) (st : state) :
  In q v2_ancillas ->
  vanishes_where 9 q true st -> vanishes_where 9 q true (run 9 v2_oracle_ops st).
Proof.
  intros Hq Hst i Hi.
  destruct (N.lt_ge_cases i (2 ^ N.of_nat 9)) as [Hlt|Hge].
  - rewrite run_x_amp by (vm_compute; reflexivity || exact Hlt).
    apply Hst. rewrite <- Hi.
    assert (Hall : forallb (fun q => forallb (fun j =>
                     Bool.eqb (qbit 9 q (classical_run 9 (rev v2_oracle_ops) j))
                              (qbit 9 q j)) (indices 9)) v2_ancillas = true)
      by (vm_compute; reflexivity).
    rewrite forallb_forall in Hall. specialize (Hall q Hq).
    rewrite forallb_forall in Hall. specialize (Hall i (in_indices 9 Hlt)).
    now apply Bool.eqb_prop.
  - change v2_oracle_ops
      with (removelast v2_oracle_ops ++ [Gate GX [] 3]).
    rewrite run_app. cbn [run fold_left].
    now apply apply_gate_out_of_range.
Qed.

(** X4: For every iteration count, in the state quantum_architect_v2.py
    samples from, each of the four ancillas is at zero: every amplitude
    with a_count, a_adj0, a_adj1 or a_xor at 1 vanishes, so measuring the
    data qubits alone loses nothing to the ancillas. *)
Theorem architect_v2_ancillas_end_at_zero :
  forall (num_iterations : Z) (q : qubit),
    In q v2_ancillas ->
    exists c,
      ArchitectV2.build_grover_circuit num_iterations = Ok c /\
      vanishes_where 9 q true (run 9 c (basis 9 0)).
Proof.
  intros k q Hq. eexists. split; [apply architect_v2_circuit_shape|].
  assert (Hav : forallb (avoids 9 q) (H_on_each [0; 1; 2; 3]) = true /\
                forallb (avoids 9 q) appended_block = true /\
                forallb (avoids 9 q) [measure [0; 1; 2; 3] "result"] = true).
  { repeat (destruct Hq as [<-|Hq]; [repeat split; reflexivity|]). contradiction. }
  destruct Hav as (HavH & HavD & HavM).
  assert (Hlt : q < 9).
  { repeat (destruct Hq as [<-|Hq]; [lia|]). contradiction. }
  rewrite !run_app.
  apply run_vanishes; [exact Hlt | exact HavM |].
  apply run_repeat_invariant.
  - intros s Hs. unfold v2_iteration.
    rewrite run_app.
    apply run_vanishes; [exact Hlt | exact HavD |].
    now apply v2_oracle_keeps_ancilla_zero.
  - apply run_vanishes; [exact Hlt | exact HavH |].
    apply basis_zero_vanishes.
Qed.

Lemma architect_v2_ancillas_end_at_zero_witness :
  exists c,
    ArchitectV2.build_grover_circuit 2 = Ok c /\
    vanishes_where 9 5 true (run 9 c (basis 9 0)).
Proof.
  apply architect_v2_ancillas_end_at_zero. left. reflexivity.
Defined.

(** ** The duplicated driver *)

(** X8: quantum_architect_muli_rule.py builds, for every iteration count, the
    very circuit quantum_architect_v2.py builds. *)
Theorem multi_rule_builds_the_same_circuit :
  forall num_iterations : Z,
    MultiRuleBuild.build_grover_circuit num_iterations =
    ArchitectV2.build_grover_circuit num_iterations.
Proof. intros k. reflexivity. Qed.
